(** * Wine data converter: loader, cleaner and writer of [converter.py]

    The three pipeline stages of the converter ([load_data_file],
    [clean_df], [save_output]) are embedded as functions over an explicit
    model of the data frames they pass around.  The calls the stages make
    into pandas, pathlib and the text codec are modelled by the documented
    behaviour of those libraries; where a library part is only used as a
    black box (the tokenizer behind [pd.read_csv], the two serialisers,
    what becomes of a write) it is a parameter of the section that uses
    it. *)

From Stdlib Require Import ZArith NArith Lia DecimalString.
From Stdlib.Strings Require Import Byte Ascii String.
From stdpp Require Import base tactics option list strings gmap.

Set Default Proof Using "Type*".

(** ** Exceptions and results *)

(** The exceptions the pipeline can raise, with their message.
    [OtherError name msg] stands for any exception raised inside a
    library call (reading, decoding, tokenizing, writing). *)
Inductive exception :=
  | ValueError (msg : string)
  | ImportError (msg : string)
  | EmptyDataError (msg : string)
  | OtherError (name msg : string).

Inductive result (A : Type) :=
  | Ok (a : A)
  | Raise (e : exception).
Arguments Ok {A} a.
Arguments Raise {A} e.

Global Instance result_bind : MBind result := λ A B k m,
  match m with
  | Ok a => k a
  | Raise e => Raise e
  end.

(** ** Data frames *)

(** A column label: pandas numbers the columns [0 .. n-1] when it reads a
    file with [header=None]; the loader replaces them by names. *)
Inductive label :=
  | LInt (n : nat)
  | LStr (s : string).

Global Instance label_eq_dec : EqDecision label.
Proof. solve_decision. Defined.

Module Frame.

(** A cell holds a scalar or is missing (pandas' NaN / None). *)
Abbreviation cell V := (option V) (only parsing).
Abbreviation row V := (list (option V)) (only parsing).

Section frame.
Context {V : Type} `{EqDecision V}.

(** Row-major view of a [pd.DataFrame]: column labels, row labels
    (the index) and one list of cells per row. *)
Record DataFrame := mkDataFrame {
  columns : list label;
  index : list nat;
  values : list (row V)
  }.

(** Every row has one cell per column and one index label. *)
Definition rectangular (df : DataFrame) : Prop :=
  length (index df) = length (values df) ∧
  Forall (λ r : row V, length r = length (columns df)) (values df).

(** [df.duplicated()] with [keep='first']: row [i] is flagged when an
    equal row occurs before it; missing cells compare equal. *)
Fixpoint duplicated_from (seen rows : list (row V)) : list bool :=
  match rows with
  | [] => []
  | r :: rows' => bool_decide (r ∈ seen) :: duplicated_from (r :: seen) rows'
  end.

Definition duplicated (rows : list (row V)) : list bool :=
  duplicated_from [] rows.

(** Boolean indexing [xs[~flags]]. *)
Fixpoint drop_flagged {A} (flags : list bool) (xs : list A) : list A :=
  match flags, xs with
  | b :: flags', x :: xs' =>
      if b then drop_flagged flags' xs' else x :: drop_flagged flags' xs'
  | _, _ => []
  end.

(** [df.drop_duplicates()]: the index labels of the kept rows stay. *)
Definition drop_duplicates (df : DataFrame) : DataFrame :=
  let flags := duplicated (values df) in
  {| columns := columns df;
     index := drop_flagged flags (index df);
     values := drop_flagged flags (values df) |}.

(** [df.reset_index(drop=True)]. *)
Definition reset_index (df : DataFrame) : DataFrame :=
  {| columns := columns df;
     index := seq 0 (length (values df));
     values := values df |}.

(** One step of the forward fill: a missing cell takes the value carried
    down its column, which is itself missing when nothing valid was seen. *)
Fixpoint fill_row (last r : row V) : row V :=
  match r with
  | [] => []
  | c :: r' =>
      match c with
      | Some v => Some v
      | None => default None (head last)
      end :: fill_row (tail last) r'
  end.

Fixpoint pad (last : row V) (rows : list (row V)) : list (row V) :=
  match rows with
  | [] => []
  | r :: rows' => let r' := fill_row last r in r' :: pad r' rows'
  end.

(** [df.ffill()]. *)
Definition ffill (df : DataFrame) : DataFrame :=
  {| columns := columns df;
     index := index df;
     values := pad [] (values df) |}.

(** The column-wise scan pandas performs ([pad_1d]): [val] is the last
    valid value seen so far. *)
Fixpoint pad_1d (val : cell V) (col : list (cell V)) : list (cell V) :=
  match col with
  | [] => []
  | c :: col' =>
      match c with
      | Some v => Some v :: pad_1d (Some v) col'
      | None => val :: pad_1d val col'
      end
  end.

(** Column [j] of a list of rows. *)
Definition column (j : nat) (rows : list (row V)) : list (cell V) :=
  (λ r : row V, default None (r !! j)) <$> rows.

(** Position [i] of a table holds the first occurrence of its row. *)
Definition first_occurrence (rows : list (row V)) (i : nat) : Prop :=
  rows !!! i ∉ take i rows.

Global Instance first_occurrence_dec rows i :
  Decision (first_occurrence rows i).
Proof. unfold first_occurrence. apply _. Defined.

(** [covers a b]: wherever row [b] has a missing cell, row [a] carries
    nothing. *)
Definition covers (a b : row V) : Prop :=
  ∀ j, b !! j = Some None → default None (a !! j) = None.

(** [clean_df]. *)
Definition clean_df (df : DataFrame) : DataFrame :=
  let df := reset_index (drop_duplicates df) in
  let df := ffill df in
  df.

End frame.
Arguments DataFrame V : clear implicits.
End Frame.
Import Frame.

(** ** Text: bytes, code points and strings *)

(** A Python [str] is a sequence of code points. *)
Definition text : Type := list N.

Definition comma : N := 44.
Definition LF : N := 10.
Definition CR : N := 13.

Definition is_continuation_byte (b : N) : bool :=
  ((128 <=? b) && (b <? 192))%N.

(** [bytes.decode("utf-8", errors="ignore")]: well-formed sequences give
    their code point; an ill-formed sequence is dropped up to, and not
    including, the first byte that cannot continue it, and decoding goes
    on from that byte.  Overlong forms, surrogates and values above
    U+10FFFF are ill-formed. *)
Fixpoint utf8_decode_ignore (bs : list N) : text :=
  match bs with
  | [] => []
  | ch :: s1 =>
    if (ch <? 128)%N then ch :: utf8_decode_ignore s1
    else if (ch <? 194)%N then utf8_decode_ignore s1
    else if (ch <? 224)%N then
      match s1 with
      | [] => []
      | ch2 :: s2 =>
        if is_continuation_byte ch2
        then ((ch - 192) * 64 + (ch2 - 128))%N :: utf8_decode_ignore s2
        else utf8_decode_ignore s1
      end
    else if (ch <? 240)%N then
      match s1 with
      | [] => []
      | ch2 :: s2 =>
        if is_continuation_byte ch2
           && negb ((ch =? 224)%N && (ch2 <? 160)%N)
           && negb ((ch =? 237)%N && (160 <=? ch2)%N)
        then
          match s2 with
          | [] => []
          | ch3 :: s3 =>
            if is_continuation_byte ch3
            then ((ch - 224) * 4096 + (ch2 - 128) * 64 + (ch3 - 128))%N
                   :: utf8_decode_ignore s3
            else utf8_decode_ignore s2
          end
        else utf8_decode_ignore s1
      end
    else if (ch <? 245)%N then
      match s1 with
      | [] => []
      | ch2 :: s2 =>
        if is_continuation_byte ch2
           && negb ((ch =? 240)%N && (ch2 <? 144)%N)
           && negb ((ch =? 244)%N && (144 <=? ch2)%N)
        then
          match s2 with
          | [] => []
          | ch3 :: s3 =>
            if is_continuation_byte ch3 then
              match s3 with
              | [] => []
              | ch4 :: s4 =>
                if is_continuation_byte ch4
                then ((ch - 240) * 262144 + (ch2 - 128) * 4096
                      + (ch3 - 128) * 64 + (ch4 - 128))%N
                       :: utf8_decode_ignore s4
                else utf8_decode_ignore s3
              end
            else utf8_decode_ignore s2
          end
        else utf8_decode_ignore s1
      end
    else utf8_decode_ignore s1
  end.

(** Text mode with universal newlines: [\r\n] and a lone [\r] are read
    as [\n]. *)
Fixpoint translate_newlines (t : text) : text :=
  match t with
  | [] => []
  | c :: t' =>
    if (c =? CR)%N then
      match t' with
      | [] => [LF]
      | d :: t'' =>
        if (d =? LF)%N then LF :: translate_newlines t''
        else LF :: translate_newlines t'
      end
    else c :: translate_newlines t'
  end.

(** [path.read_text(encoding="utf-8", errors="ignore")] on a file with
    the given content. *)
Definition read_text (raw : list Byte.byte) : text :=
  translate_newlines (utf8_decode_ignore (Byte.to_N <$> raw)).

(** [str(n)] for a non-negative [int]. *)
Definition str_of_nat (n : nat) : string :=
  NilZero.string_of_uint (Nat.to_uint n).

(** [str.lower] on the ASCII letters; no character outside ASCII has a
    lower case among the letters of [.csv] and [.xlsx]. *)
Definition lower_ascii (a : ascii) : ascii :=
  let n := Ascii.N_of_ascii a in
  if ((65 <=? n) && (n <=? 90))%N then Ascii.ascii_of_N (n + 32) else a.

Fixpoint lower (s : string) : string :=
  match s with
  | EmptyString => EmptyString
  | String a s' => String (lower_ascii a) (lower s')
  end.

(** [s.rfind(c)], with [None] for Python's [-1]. *)
Fixpoint rfind (c : ascii) (s : string) : option nat :=
  match s with
  | EmptyString => None
  | String a s' =>
    match rfind c s' with
    | Some i => Some (S i)
    | None => if decide (a = c) then Some 0 else None
    end
  end.

(** [s[i:]]. *)
Fixpoint string_from (i : nat) (s : string) : string :=
  match i, s with
  | S i', String _ s' => string_from i' s'
  | _, _ => s
  end.

(** The characters [str.strip] removes: the white space of Unicode
    (U+0009..U+000D, U+001C..U+0020, U+0085, U+00A0, U+1680,
    U+2000..U+200A, U+2028, U+2029, U+202F, U+205F, U+3000). *)
Definition is_space (c : N) : bool :=
  (((9 <=? c) && (c <=? 13)) || ((28 <=? c) && (c <=? 32))
   || (c =? 133) || (c =? 160) || (c =? 5760)
   || ((8192 <=? c) && (c <=? 8202))
   || (c =? 8232) || (c =? 8233) || (c =? 8239) || (c =? 8287)
   || (c =? 12288))%N.

(** The characters of a string, which holds its text as UTF-8 bytes. *)
Definition code_points (s : string) : text :=
  utf8_decode_ignore (Byte.to_N <$> list_byte_of_string s).

(** [not s.strip()]. *)
Definition strip_is_empty (s : string) : bool :=
  forallb is_space (code_points s).

(** [needle in haystack] for strings. *)
Fixpoint contains (needle haystack : string) : bool :=
  String.prefix needle haystack ||
  match haystack with
  | EmptyString => false
  | String _ h' => contains needle h'
  end.

(** ** Loader *)

Definition WINE_HEADERS : list string :=
  [ "Cultivars";
    "Alcohol";
    "Malic acid";
    "Ash";
    "Alcalinity of ash";
    "Magnesium";
    "Total phenols";
    "Flavanoids";
    "Nonflavanoid phenols";
    "Proanthocyanins";
    "Color intensity";
    "Hue";
    "OD280/OD315 of diluted wines";
    "Proline" ]%string.

(** The field texts pandas reads as a missing value (its default
    [na_values]). *)
Definition na_values : list string :=
  [ ""; "#N/A"; "#N/A N/A"; "#NA"; "-1.#IND"; "-1.#QNAN"; "-NaN"; "-nan";
    "1.#IND"; "1.#QNAN"; "<NA>"; "N/A"; "NA"; "NULL"; "NaN"; "None";
    "n/a"; "nan"; "null" ]%string.

(** A parsed field; the scalar keeps the text of the field (the
    conversion of a column of numerals to numbers is left out: values
    are compared by their text). *)
Definition to_cell (field : string) : cell string :=
  if bool_decide (field ∈ na_values) then None else Some field.

(** A tokenized line pandas drops as blank ([skip_blank_lines]). *)
Definition is_blank (line : list string) : bool :=
  match line with
  | [] => true
  | [field] => strip_is_empty field
  | _ => false
  end.

(** What the tokenizer gives for one record of the file: its fields, or
    the [csv.Error] it raised on the record. *)
Inductive csv_row :=
  | Fields (fields : list string)
  | Malformed (msg : string).

(** Under [on_bad_lines="skip"] a record on which the tokenizer raised is
    passed over and reading goes on with the next one. *)
Definition parsed (rows : list csv_row) : list (list string) :=
  omap (λ row, match row with
               | Fields fields => Some fields
               | Malformed _ => None
               end) rows.

(** What pandas' python engine builds from the tokenized lines under
    [header=None] and [on_bad_lines="skip"]: blank lines are dropped, the
    first line left fixes the number of columns, a line with more fields
    than that is a bad line and is skipped, a line with fewer fields is
    kept and completed with missing values.  (With a sniffed delimiter
    pandas takes the width from the first line as tokenized, which is
    this width unless that line is blank.) *)
Definition python_parser (lines : list (list string))
    : result (DataFrame string) :=
  let content := filter (λ l, is_blank l = false) lines in
  match content with
  | [] => Raise (EmptyDataError "No columns to parse from file")
  | first :: _ =>
    let ncols := length first in
    let kept := filter (λ l : list string, length l ≤ ncols) content in
    Ok {| columns := LInt <$> seq 0 ncols;
          index := seq 0 (length kept);
          values := (λ l : list string,
                       (to_cell <$> l) ++ replicate (ncols - length l) None)
                    <$> kept |}
  end.

(** The delimiter choice of [load_data_file]. *)
Definition sample (raw : list Byte.byte) : text :=
  take 2048 (read_text raw).

Definition delimiter (raw : list Byte.byte) : option string :=
  if bool_decide (comma ∈ sample raw) then Some ","%string else None.

(** The sample as the specification words it: the first 2048 bytes of
    the file, decoded. *)
Definition sample_of_first_bytes (raw : list Byte.byte) : text :=
  read_text (take 2048 raw).

Definition delimiter_of_first_bytes (raw : list Byte.byte) : option string :=
  if bool_decide (comma ∈ sample_of_first_bytes raw)
  then Some ","%string else None.

Definition schema_message (found required : nat) : string :=
  "Dataset has " +:+ str_of_nat found
    +:+ " columns but Wine dataset requires " +:+ str_of_nat required +:+ ".".

Section loader.

(** The tokenizer behind [pd.read_csv(..., engine="python")]: what
    Python's [csv.reader] gives record by record for the file, split at
    the given delimiter, or at the one [csv.Sniffer] finds when none is
    given.  It fails as a whole when the file cannot be decoded or no
    delimiter can be found. *)
Variable csv_reader :
  list Byte.byte → option string → result (list csv_row).

Definition read_csv (raw : list Byte.byte) (delimiter : option string)
    : result (DataFrame string) :=
  rows ← csv_reader raw delimiter; python_parser (parsed rows).

Definition load_data_file (raw : list Byte.byte) : result (DataFrame string) :=
  df ← read_csv raw (delimiter raw);
  if bool_decide (length (columns df) ≠ length WINE_HEADERS) then
    Raise (ValueError
             (schema_message (length (columns df)) (length WINE_HEADERS)))
  else
    Ok {| columns := LStr <$> WINE_HEADERS;
          index := index df;
          values := values df |}.

End loader.

(** A tokenizer for plain files: it agrees with [csv.reader] on a file
    that has neither quote characters nor carriage returns, read with a
    one-character delimiter.  Sniffing is not part of it. *)
Fixpoint file_lines (bs : list Byte.byte) : list (list Byte.byte) :=
  match bs with
  | [] => []
  | b :: bs' =>
    if Byte.eqb b "010"%byte then [] :: file_lines bs'
    else match file_lines bs' with
         | cur :: more => (b :: cur) :: more
         | [] => [[b]]
         end
  end.

Fixpoint split_on (sep : Byte.byte) (bs : list Byte.byte)
    : list (list Byte.byte) :=
  match bs with
  | [] => [[]]
  | b :: bs' =>
    if Byte.eqb b sep then [] :: split_on sep bs'
    else match split_on sep bs' with
         | cur :: more => (b :: cur) :: more
         | [] => [[b]]
         end
  end.

Definition fields_of_line (sep : Byte.byte) (line : list Byte.byte)
    : list string :=
  match line with
  | [] => []
  | _ => string_of_list_byte <$> split_on sep line
  end.

Definition plain_reader (raw : list Byte.byte) (delimiter : option string)
    : result (list csv_row) :=
  match delimiter with
  | Some (String a EmptyString) =>
      Ok ((λ line, Fields (fields_of_line (byte_of_ascii a) line))
            <$> file_lines raw)
  | _ => Raise (OtherError "Error" "Could not determine delimiter")
  end.










(** ** Writer *)

(** A [pathlib.Path], by its parts. *)
Abbreviation Path := (list string) (only parsing).

(** The files on disk, by path. *)
Abbreviation files := (gmap (list string) (list Byte.byte)) (only parsing).

Definition name (p : Path) : string := default ""%string (last p).

(** [PurePath.suffix]. *)
Definition suffix (p : Path) : string :=
  match rfind "."%char (name p) with
  | Some i =>
    if bool_decide (0 < i ∧ i + 1 < String.length (name p))
    then string_from i (name p) else ""%string
  | None => ""%string
  end.

Definition NL : string := String (ascii_of_nat 10) EmptyString.

Definition openpyxl_message : string :=
  "Excel export requires 'openpyxl' package." +:+ NL +:+ NL +:+
  "Please install it by running:" +:+ NL +:+
  "pip install openpyxl" +:+ NL +:+ NL +:+
  "Or save the file as CSV instead.".

Definition unsupported_message : string :=
  "Unsupported output format. Please use .xlsx or .csv".

Section writer.

(** What becomes of a write of some content at a path: [None] when the
    content is written; [Some (e, partial)] when the write raises [e] (a
    missing directory, a refused permission, a full disk), [partial]
    being what the failed write left at the path if it got as far as
    opening it. *)
Variable write_fault :
  files → list string → list Byte.byte
  → option (exception * option (list Byte.byte)).

Definition write_file (fs : files) (path : Path) (content : list Byte.byte)
    : result unit * files :=
  match write_fault fs path content with
  | None => (Ok (), <[path := content]> fs)
  | Some (e, None) => (Raise e, fs)
  | Some (e, Some partial) => (Raise e, <[path := partial]> fs)
  end.

(** [df.to_csv(index=False)] as the bytes it writes. *)
Variable to_csv : DataFrame string → list Byte.byte.

(** The optional spreadsheet package: the workbook writer when it is
    installed. *)
Variable openpyxl : option (DataFrame string → list Byte.byte).

(** [df.to_excel(output_path, index=False, engine='openpyxl')]: without
    the package the call raises before any file is opened. *)
Definition to_excel (df : DataFrame string) (output_path : Path)
    (fs : files) : result unit * files :=
  match openpyxl with
  | Some write_workbook => write_file fs output_path (write_workbook df)
  | None =>
      (Raise (ImportError
                "Missing optional dependency 'openpyxl'.  Use pip or conda to install openpyxl."),
       fs)
  end.

Definition save_output (df : DataFrame string) (output_path : Path)
    (fs : files) : result unit * files :=
  let ext := lower (suffix output_path) in
  if decide (ext = ".xlsx"%string) then
    match to_excel df output_path fs with
    | (Raise (ImportError _), fs') =>
        (Raise (ImportError openpyxl_message), fs')
    | outcome => outcome
    end
  else if decide (ext = ".csv"%string) then
    write_file fs output_path (to_csv df)
  else
    (Raise (ValueError unsupported_message), fs).

End writer.

(** The write that always goes through. *)
Definition no_fault (fs : files) (path : Path) (content : list Byte.byte)
    : option (exception * option (list Byte.byte)) := None.

(** A serialiser for plain tables: it agrees with [df.to_csv(index=False)]
    on a table whose labels and values hold no comma, quote or line break,
    with [\n] as line terminator. *)
Definition label_text (l : label) : string :=
  match l with
  | LInt n => str_of_nat n
  | LStr s => s
  end.

Definition cell_text (c : cell string) : string := default ""%string c.

Fixpoint join (sep : string) (parts : list string) : string :=
  match parts with
  | [] => ""
  | [part] => part
  | part :: parts' => part +:+ sep +:+ join sep parts'
  end.

Definition plain_to_csv (df : DataFrame string) : list Byte.byte :=
  list_byte_of_string
    (join "," (label_text <$> columns df) +:+ NL +:+
     String.concat ""
       ((λ r : row string, join "," (cell_text <$> r) +:+ NL) <$> values df)).

(** ** The form *)

(** A message box shown to the operator. *)
Inductive dialog :=
  | showerror (title message : string)
  | showinfo (title message : string).

(** What the conversion reads and changes of the window: the two path
    variables, the progress bar (its value and whether it was switched to
    the green style) and the message boxes shown so far. *)
Record Form := mkForm {
  input_var : string;
  output_var : string;
  progress_value : nat;
  progress_green : bool;
  dialogs : list dialog
}.

Definition set_input (path : string) (form : Form) : Form :=
  {| input_var := path;
     output_var := output_var form;
     progress_value := progress_value form;
     progress_green := progress_green form;
     dialogs := dialogs form |}.

Definition set_output (path : string) (form : Form) : Form :=
  {| input_var := input_var form;
     output_var := path;
     progress_value := progress_value form;
     progress_green := progress_green form;
     dialogs := dialogs form |}.

(** [progress_bar["value"] = v]. *)
Definition set_progress (v : nat) (form : Form) : Form :=
  {| input_var := input_var form;
     output_var := output_var form;
     progress_value := v;
     progress_green := progress_green form;
     dialogs := dialogs form |}.

(** [progress_bar.configure(style="Green.Horizontal.TProgressbar")]. *)
Definition set_green (form : Form) : Form :=
  {| input_var := input_var form;
     output_var := output_var form;
     progress_value := progress_value form;
     progress_green := true;
     dialogs := dialogs form |}.

(** [messagebox.showerror] and [messagebox.showinfo]. *)
Definition show (d : dialog) (form : Form) : Form :=
  {| input_var := input_var form;
     output_var := output_var form;
     progress_value := progress_value form;
     progress_green := progress_green form;
     dialogs := dialogs form ++ [d] |}.

(** [browse_input] and [browse_output]: [chosen] is what the file dialog
    returns, the empty string when it is cancelled. *)
Definition browse_input (chosen : string) (form : Form) : Form :=
  if decide (chosen = ""%string) then form else set_input chosen form.

Definition browse_output (chosen : string) (form : Form) : Form :=
  if decide (chosen = ""%string) then form else set_output chosen form.

(** [str(e)]. *)
Definition str_of_exception (e : exception) : string :=
  match e with
  | ValueError msg => msg
  | ImportError msg => msg
  | EmptyDataError msg => msg
  | OtherError _ msg => msg
  end.

Definition csv_hint : string :=
  NL +:+ NL +:+ "You can still save as CSV format.".

(** The text the two handlers of [convert] put in the message box. *)
Definition failure_message (e : exception) : string :=
  match e with
  | ImportError msg =>
      if contains "openpyxl" msg then msg +:+ csv_hint else msg
  | _ => str_of_exception e
  end.

Section form.

Variable csv_reader :
  list Byte.byte → option string → result (list csv_row).
Variable write_fault :
  files → list string → list Byte.byte
  → option (exception * option (list Byte.byte)).
Variable to_csv : DataFrame string → list Byte.byte.
Variable openpyxl : option (DataFrame string → list Byte.byte).

(** [Path(s)]: the parts of the path a string denotes. *)
Variable to_path : string → list string.

(** The text of the error raised when the file at a path is missing. *)
Variable no_such_file : list string → string.

(** [load_data_file] on a path: the file is read from the store. *)
Definition load_data_file_at (fs : files) (path : Path)
    : result (DataFrame string) :=
  match fs !! path with
  | Some raw => load_data_file csv_reader raw
  | None => Raise (OtherError "FileNotFoundError" (no_such_file path))
  end.

(** The body of the [try] block of [convert]. *)
Definition run_pipeline (form : Form) (fs : files)
    : result unit * Form * files :=
  let form := set_progress 20 form in
  match load_data_file_at fs (to_path (input_var form)) with
  | Raise e => (Raise e, form, fs)
  | Ok df =>
    let form := set_progress 60 form in
    let df := clean_df df in
    let form := set_progress 80 form in
    match save_output write_fault to_csv openpyxl df
                      (to_path (output_var form)) fs with
    | (Raise e, fs') => (Raise e, form, fs')
    | (Ok _, fs') =>
      let form := set_progress 100 form in
      let form := set_green form in
      let form := show (showinfo "Success" "File converted successfully.")
                       form in
      (Ok (), form, fs')
    end
  end.

Definition convert (form : Form) (fs : files) : Form * files :=
  if decide (input_var form = ""%string) then
    (show (showerror "Error" "Select an input .data file.") form, fs)
  else if decide (output_var form = ""%string) then
    (show (showerror "Error" "Choose an output file path.") form, fs)
  else
    match run_pipeline form fs with
    | (Ok _, form', fs') => (form', fs')
    | (Raise e, form', fs') =>
      let form' := show (showerror "Conversion Failed" (failure_message e))
                        form' in
      let form' := set_progress 0 form' in
      (form', fs')
    end.

End form.

(** The form after a failed run. *)
Definition failed (e : exception) (form : Form) : Form :=
  {| input_var := input_var form;
     output_var := output_var form;
     progress_value := 0;
     progress_green := progress_green form;
     dialogs :=
       dialogs form ++ [showerror "Conversion Failed" (failure_message e)] |}.

(** The form after a successful run. *)
Definition succeeded (form : Form) : Form :=
  {| input_var := input_var form;
     output_var := output_var form;
     progress_value := 100;
     progress_green := true;
     dialogs :=
       dialogs form ++ [showinfo "Success" "File converted successfully."] |}.

(** [Path(s)] for an ordinary POSIX path string: the parts between
    slashes, without empty parts and [.] parts, after the root if the
    string starts with a slash. *)
Fixpoint split_string (sep : ascii) (s : string) : list string :=
  match s with
  | EmptyString => [EmptyString]
  | String a s' =>
    if decide (a = sep) then EmptyString :: split_string sep s'
    else match split_string sep s' with
         | cur :: more => String a cur :: more
         | [] => [String a EmptyString]
         end
  end.

Definition posix_path (s : string) : list string :=
  let parts :=
    filter (λ part : string, part ≠ ""%string ∧ part ≠ "."%string)
           (split_string "/"%char s) in
  if String.prefix "/" s then "/"%string :: parts else parts.

Definition posix_string (path : list string) : string :=
  match path with
  | "/"%string :: parts => "/" +:+ join "/" parts
  | _ => join "/" path
  end.

Definition posix_no_such_file (path : list string) : string :=
  "[Errno 2] No such file or directory: '" +:+ posix_string path +:+ "'".

(** ** Sample data *)

(** The first record of the Wine data set. *)
Definition wine_row : row string :=
  Some <$> [ "1"; "14.23"; "1.71"; "2.43"; "15.6"; "127"; "2.8"; "3.06";
             ".28"; "2.29"; "5.64"; "1.04"; "3.92"; "1065" ]%string.

(** The same record with its third field empty. *)
Definition wine_row_gap : row string := <[2 := None]> wine_row.

Definition gap_table : DataFrame string :=
  {| columns := LStr <$> WINE_HEADERS;
     index := [0; 1];
     values := [wine_row; wine_row_gap] |}.

(** The file that loads as [gap_table]. *)
Definition gap_file : list Byte.byte :=
  list_byte_of_string
    ("1,14.23,1.71,2.43,15.6,127,2.8,3.06,.28,2.29,5.64,1.04,3.92,1065"
       +:+ NL +:+
     "1,14.23,,2.43,15.6,127,2.8,3.06,.28,2.29,5.64,1.04,3.92,1065"
       +:+ NL).

(** A file whose first line looks like a header. *)
Definition header_file : list Byte.byte :=
  list_byte_of_string
    (join "," WINE_HEADERS +:+ NL +:+
     "1,14.23,1.71,2.43,15.6,127,2.8,3.06,.28,2.29,5.64,1.04,3.92,1065"
       +:+ NL).

(** A file with 15 fields in its row. *)
Definition fifteen_file : list Byte.byte :=
  list_byte_of_string ("A,1,2,3,4,5,6,7,8,9,10,11,12,13,14" +:+ NL).

(** A row of 14 fields followed by a row of 13 fields. *)
Definition short_row_file : list Byte.byte :=
  list_byte_of_string
    ("A,1,2,3,4,5,6,7,8,9,10,11,12,13" +:+ NL +:+
     "B,1,2,3,4,5,6,7,8,9,10,11,12" +:+ NL).



(** A second record whose third field is empty too. *)
Definition wine_row_gap_2 : row string := <[0 := Some "2"%string]> wine_row_gap.

(** A table whose third column starts with two missing cells. *)
Definition top_gap_table : DataFrame string :=
  {| columns := LStr <$> WINE_HEADERS;
     index := [0; 1];
     values := [wine_row_gap; wine_row_gap_2] |}.

(** A second complete record, and a table of two distinct complete
    records. *)
Definition wine_row_2 : row string := <[0 := Some "2"%string]> wine_row.

Definition two_row_table : DataFrame string :=
  {| columns := LStr <$> WINE_HEADERS;
     index := [0; 1];
     values := [wine_row; wine_row_2] |}.

(** A stand-in for the workbook writer of the spreadsheet package. *)
Definition sample_workbook (df : DataFrame string) : list Byte.byte :=
  list_byte_of_string "PK" ++ plain_to_csv df.

(** A form with both paths chosen, for a CSV and for a workbook target,
    and the files of a directory that holds [gap_file]. *)
Definition ready_form : Form :=
  {| input_var := "in/wine.data";
     output_var := "out/wine.csv";
     progress_value := 0;
     progress_green := false;
     dialogs := [] |}.

Definition ready_form_xlsx : Form := set_output "out/wine.xlsx" ready_form.

Definition empty_form : Form :=
  {| input_var := "";
     output_var := "";
     progress_value := 0;
     progress_green := false;
     dialogs := [] |}.

(** A form whose target is in a directory that does not exist, and the
    refusal of a write into that directory. *)
Definition lost_form : Form := set_output "missing_dir/wine.csv" ready_form.

Definition missing_directory : exception :=
  OtherError "OSError"
    "Cannot save file into a non-existent directory: 'missing_dir'".

Definition refuse_missing_dir (fs : gmap (list string) (list Byte.byte))
    (path : list string) (content : list Byte.byte)
    : option (exception * option (list Byte.byte)) :=
  if bool_decide (head path = Some "missing_dir"%string)
  then Some (missing_directory, None) else None.

Definition wine_files : gmap (list string) (list Byte.byte) :=
  {[ ["in"; "wine.data"]%string := gap_file ]}.

(** * Properties *)

(** ** Removing duplicate rows *)

Section duplicates.
Context {V : Type} `{EqDecision V}.
Implicit Types (r : row V) (rows seen : list (row V)).

Lemma length_duplicated_from seen rows :
  length (duplicated_from seen rows) = length rows.
Proof.
  revert seen. induction rows as [|r rows IH]; intros seen; simpl; [done|].
  by rewrite IH.
Qed.

Lemma length_drop_flagged_le {A} (flags : list bool) (xs : list A) :
  length (drop_flagged flags xs) ≤ length xs.
Proof.
  revert flags. induction xs as [|x xs IH]; intros [|[] flags]; simpl;
    try lia; specialize (IH flags); lia.
Qed.

Lemma drop_flagged_sublist {A} (flags : list bool) (xs : list A) :
  drop_flagged flags xs `sublist_of` xs.
Proof.
  revert flags. induction xs as [|x xs IH]; intros [|[] flags]; simpl.
  - constructor.
  - constructor.
  - constructor.
  - apply sublist_nil_l.
  - by apply sublist_cons.
  - by apply sublist_skip.
Qed.

(** The rows kept are those of the table that were not seen before. *)
Lemma elem_of_drop_duplicated seen rows r :
  r ∈ drop_flagged (duplicated_from seen rows) rows ↔ r ∈ rows ∧ r ∉ seen.
Proof.
  revert seen. induction rows as [|r' rows IH]; intros seen; simpl.
  - rewrite elem_of_nil. tauto.
  - case_bool_decide as Hin.
    + rewrite IH, not_elem_of_cons, elem_of_cons. split.
      * tauto.
      * intros [[->|Hr] Hs]; [done|]. split; [done|]. split; [|done].
        intros ->. done.
    + rewrite elem_of_cons, IH, not_elem_of_cons, elem_of_cons. split.
      * intros [->|[Hr [Hne Hs]]]; [by split; [left|] | by split; [right|]].
      * intros [[->|Hr] Hs]; [by left|].
        destruct (decide (r = r')) as [->|Hne]; [by left|]. right. done.
Qed.

Lemma NoDup_drop_duplicated seen rows :
  NoDup (drop_flagged (duplicated_from seen rows) rows).
Proof.
  revert seen. induction rows as [|r rows IH]; intros seen; simpl.
  - constructor.
  - case_bool_decide; [apply IH|]. constructor; [|apply IH].
    rewrite elem_of_drop_duplicated, not_elem_of_cons. tauto.
Qed.

(** Nothing is removed exactly when no row repeats. *)
Lemma drop_duplicated_id seen rows :
  drop_flagged (duplicated_from seen rows) rows = rows ↔
  NoDup rows ∧ ∀ r, r ∈ rows → r ∉ seen.
Proof.
  revert seen. induction rows as [|r rows IH]; intros seen; simpl.
  - split; [|done]. intros _. split; [constructor|]. by intros r ?%elem_of_nil.
  - case_bool_decide as Hin.
    + split.
      * intros Heq.
        pose proof (length_drop_flagged_le
                      (duplicated_from (r :: seen) rows) rows) as Hle.
        rewrite Heq in Hle. simpl in Hle. lia.
      * intros [_ Hs]. destruct (Hs r); [by left|done].
    + split.
      * intros Heq. injection Heq as Heq. apply IH in Heq as [Hnd Hs].
        split.
        -- constructor; [|done]. intros Hr. apply (Hs r Hr). by left.
        -- intros r' [->|Hr']%elem_of_cons; [done|].
           specialize (Hs r' Hr'). by apply not_elem_of_cons in Hs as [_ ?].
      * intros [Hnd Hs]. apply NoDup_cons in Hnd as [Hr Hnd]. f_equal.
        apply IH. split; [done|]. intros r' Hr'.
        apply not_elem_of_cons. split; [|apply Hs; by right].
        intros ->. done.
Qed.

Lemma drop_duplicated_first_occurrences pre seen rows :
  (∀ r, r ∈ seen ↔ r ∈ pre) →
  drop_flagged (duplicated_from seen rows) rows =
  (λ i, (pre ++ rows) !!! i) <$>
    filter (first_occurrence (pre ++ rows)) (seq (length pre) (length rows)).
Proof.
  revert pre seen. induction rows as [|r rows IH]; intros pre seen Hseen;
    simpl; [done|].
  assert (((pre ++ r :: rows) !!! length pre) = r) as Hat.
  { apply list_lookup_total_correct. by rewrite list_lookup_middle. }
  assert (take (length pre) (pre ++ r :: rows) = pre) as Htake.
  { by rewrite take_app_length. }
  assert (pre ++ r :: rows = (pre ++ [r]) ++ rows) as Happ.
  { by rewrite <-app_assoc. }
  assert (S (length pre) = length (pre ++ [r])) as Hlen.
  { rewrite length_app. simpl. lia. }
  assert (∀ r', r' ∈ r :: seen ↔ r' ∈ pre ++ [r]) as Hseen'.
  { intros r'. rewrite elem_of_cons, elem_of_app, list_elem_of_singleton, Hseen.
    tauto. }
  rewrite filter_cons.
  destruct (decide (first_occurrence (pre ++ r :: rows) (length pre)))
    as [Hfirst|Hfirst];
    unfold first_occurrence in Hfirst; rewrite Hat, Htake in Hfirst;
    case_bool_decide as Hin.
  - destruct Hfirst. by apply Hseen.
  - rewrite fmap_cons, Hat. f_equal. rewrite Happ, Hlen. by apply IH.
  - rewrite Happ, Hlen. by apply IH.
  - destruct Hfirst. by rewrite <-Hseen.
Qed.

End duplicates.

(** ** Forward fill *)

Section fill.
Context {V : Type}.
Implicit Types (c val : cell V) (r last : row V) (rows : list (row V)).

Lemma fill_row_lookup last r j :
  fill_row last r !! j =
  (λ c, match c with Some v => Some v | None => default None (last !! j) end)
    <$> r !! j.
Proof.
  revert last j. induction r as [|c r IH]; intros last j; [done|].
  destruct j as [|j].
  - simpl. by rewrite head_lookup.
  - change (fill_row last (c :: r) !! S j) with (fill_row (tail last) r !! j).
    change ((c :: r) !! S j) with (r !! j).
    by rewrite IH, lookup_tail.
Qed.

Lemma length_fill_row last r : length (fill_row last r) = length r.
Proof.
  revert last. induction r as [|c r IH]; intros last; simpl; [done|].
  by rewrite IH.
Qed.

Lemma length_pad last rows : length (pad last rows) = length rows.
Proof.
  revert last. induction rows as [|r rows IH]; intros last; simpl; [done|].
  by rewrite IH.
Qed.

(** Filling keeps the shape of the table, row by row. *)
Lemma pad_lookup_length last rows i r' :
  pad last rows !! i = Some r' →
  ∃ r, rows !! i = Some r ∧ length r' = length r.
Proof.
  revert last i. induction rows as [|r rows IH]; intros last i; simpl; [done|].
  destruct i as [|i]; simpl.
  - intros [= <-]. exists r. by rewrite length_fill_row.
  - apply IH.
Qed.

Lemma pad_Forall_length last rows n :
  Forall (λ r, length r = n) rows → Forall (λ r, length r = n) (pad last rows).
Proof.
  intros Hall. revert last. induction Hall as [|r rows Hr _ IH]; intros last;
    simpl; constructor; [by rewrite length_fill_row | apply IH].
Qed.

(** A valid cell is never touched. *)
Lemma pad_lookup_valid last rows i r j v :
  rows !! i = Some r → r !! j = Some (Some v) →
  ∃ r', pad last rows !! i = Some r' ∧ r' !! j = Some (Some v).
Proof.
  revert last i. induction rows as [|r0 rows IH]; intros last i; simpl; [done|].
  destruct i as [|i]; simpl.
  - intros [= ->] Hj. eexists; split; [done|].
    by rewrite fill_row_lookup, Hj.
  - apply IH.
Qed.

Lemma column_lookup j rows i r :
  rows !! i = Some r → column j rows !! i = Some (default None (r !! j)).
Proof. intros Hi. unfold column. by rewrite list_lookup_fmap, Hi. Qed.

(** The row-by-row fill does, in each column, the scan of [pad_1d]. *)
Lemma column_pad j last rows :
  Forall (λ r, j < length r) rows →
  column j (pad last rows) = pad_1d (default None (last !! j)) (column j rows).
Proof.
  intros Hall. revert last. induction Hall as [|r rows Hr _ IH]; intros last;
    simpl; [done|].
  destruct (lookup_lt_is_Some_2 r j Hr) as [c Hc].
  rewrite IH, !fill_row_lookup, Hc. simpl. by destruct c.
Qed.

(** After the scan a cell is missing only when the carried value and every
    cell down to it were missing. *)
Lemma pad_1d_missing val col i :
  pad_1d val col !! i = Some None →
  val = None ∧ ∀ k, k ≤ i → col !! k = Some None.
Proof.
  revert val i. induction col as [|[v|] col IH]; intros val i; simpl; [done| |].
  - destruct i as [|i]; simpl; [done|]. intros Hi. by apply IH in Hi as [? _].
  - destruct i as [|i]; simpl.
    + intros [= ->]. split; [done|]. intros k Hk.
      by replace k with 0 by lia.
    + intros Hi. apply IH in Hi as [-> Hall]. split; [done|].
      intros [|k] Hk; [done|]. apply Hall. lia.
Qed.

Lemma pad_1d_carry val col i :
  (∀ m, m ≤ i → col !! m = Some None) → pad_1d val col !! i = Some val.
Proof.
  revert i. induction col as [|c col IH]; intros i Hall.
  - by specialize (Hall 0 ltac:(lia)).
  - pose proof (Hall 0 ltac:(lia)) as [= ->]. simpl.
    destruct i as [|i]; [done|]. simpl. apply IH.
    intros m Hm. apply (Hall (S m)). lia.
Qed.

(** A missing cell takes the nearest valid value above it. *)
Lemma pad_1d_nearest val col k i x :
  col !! k = Some (Some x) → k ≤ i →
  (∀ m, k < m → m ≤ i → col !! m = Some None) →
  pad_1d val col !! i = Some (Some x).
Proof.
  revert val k i. induction col as [|c col IH]; intros val k i; [done|].
  destruct k as [|k]; simpl.
  - intros [= ->] _ Hall. destruct i as [|i]; [done|]. simpl.
    apply pad_1d_carry. intros m Hm. apply (Hall (S m)); lia.
  - intros Hk Hle Hall. destruct i as [|i]; [lia|].
    assert (∀ val', pad_1d val' col !! i = Some (Some x)) as Hrec.
    { intros val'. apply (IH val' k i); [done|lia|].
      intros m ? ?. apply (Hall (S m)); lia. }
    destruct c; simpl; apply Hrec.
Qed.

Lemma fill_row_id last r : fill_row last r = r ↔ covers last r.
Proof.
  split.
  - intros Heq j Hj.
    assert (fill_row last r !! j = Some None) as Hf by by rewrite Heq.
    rewrite fill_row_lookup, Hj in Hf. simpl in Hf. congruence.
  - intros Hcov. apply list_eq. intros j. rewrite fill_row_lookup.
    destruct (r !! j) as [[v|]|] eqn:Hj; simpl; [done| |done].
    by rewrite (Hcov j Hj).
Qed.

Lemma covers_fill_row last r : covers last (fill_row last r).
Proof.
  intros j. rewrite fill_row_lookup.
  destruct (r !! j) as [[v|]|]; simpl; congruence.
Qed.

Lemma covers_trans (a b d : row V) :
  length b = length d → covers a b → covers b d → covers a d.
Proof.
  intros Hlen Hab Hbd j Hj.
  assert (j < length b) as Hlt by (rewrite Hlen; by eapply lookup_lt_Some).
  destruct (lookup_lt_is_Some_2 b j Hlt) as [c Hc].
  specialize (Hbd j Hj). rewrite Hc in Hbd. simpl in Hbd. subst c.
  by apply Hab.
Qed.

(** A table the fill leaves as it is. *)
Lemma pad_id_cons last r rows :
  pad last (r :: rows) = r :: rows ↔ covers last r ∧ pad r rows = rows.
Proof.
  simpl. split.
  - intros [= Hr Hrows]. rewrite Hr in Hrows. by rewrite <-fill_row_id.
  - intros [Hr%fill_row_id Hrows]. by rewrite Hr, Hrows.
Qed.

Lemma pad_pad last rows : pad last (pad last rows) = pad last rows.
Proof.
  revert last. induction rows as [|r rows IH]; intros last; [done|].
  change (pad last (r :: rows))
    with (fill_row last r :: pad (fill_row last r) rows).
  apply pad_id_cons. split; [apply covers_fill_row | apply IH].
Qed.

Lemma pad_id_weaken n last r rows :
  length r = n → Forall (λ r, length r = n) rows →
  covers last r → pad r rows = rows → pad last rows = rows.
Proof.
  intros Hr Hall Hcov Hid. destruct rows as [|r2 rows]; [done|].
  apply pad_id_cons in Hid as [Hcov2 Hid]. apply pad_id_cons. split; [|done].
  apply Forall_cons in Hall as [Hr2 _].
  apply (covers_trans _ r); [congruence|done|done].
Qed.

(** Removing rows from a filled table leaves a filled table. *)
Lemma pad_id_sublist n rows' rows last :
  rows' `sublist_of` rows → Forall (λ r, length r = n) rows →
  pad last rows = rows → pad last rows' = rows'.
Proof.
  intros Hsub. revert last.
  induction Hsub as [|r rows' rows Hsub IH|r rows' rows Hsub IH];
    intros last Hall Hid; [done| |].
  - apply Forall_cons in Hall as [Hr Hall].
    apply pad_id_cons in Hid as [Hcov Hid]. apply pad_id_cons.
    split; [done|]. by apply IH.
  - apply Forall_cons in Hall as [Hr Hall].
    apply pad_id_cons in Hid as [Hcov Hid]. apply IH; [done|].
    by apply (pad_id_weaken n last r).
Qed.

(** A table without missing cells is its own fill. *)
Lemma pad_id_valid last rows :
  Forall (Forall is_Some) rows → pad last rows = rows.
Proof.
  intros Hall. revert last. induction Hall as [|r rows Hr _ IH]; intros last;
    [done|].
  apply pad_id_cons. split; [|apply IH].
  intros j Hj. rewrite Forall_lookup in Hr.
  by destruct (Hr j None Hj) as [? [=]].
Qed.

End fill.

(** ** The cleaner *)

Section cleaner.
Context {V : Type} `{EqDecision V}.
Implicit Types (df : DataFrame V) (r : row V) (rows : list (row V)).

Lemma values_clean_df df :
  values (clean_df df) = pad [] (values (drop_duplicates df)).
Proof. done. Qed.

Lemma drop_duplicates_Forall (P : row V → Prop) df :
  Forall P (values df) → Forall P (values (drop_duplicates df)).
Proof.
  rewrite !Forall_forall. intros Hall r Hr. apply Hall.
  eapply elem_of_sublist; [exact Hr|]. apply drop_flagged_sublist.
Qed.

Lemma clean_df_rows_length df :
  rectangular df →
  Forall (λ r, length r = length (columns df)) (values (clean_df df)).
Proof.
  intros [_ Hall]. rewrite values_clean_df. apply pad_Forall_length.
  by apply (drop_duplicates_Forall (λ r, length r = length (columns df))).
Qed.

Lemma clean_df_rectangular df : rectangular df → rectangular (clean_df df).
Proof.
  intros Hrect. split; [|exact (clean_df_rows_length df Hrect)].
  simpl. by rewrite length_seq, length_pad.
Qed.

(** The fill has nothing left to do on a cleaned table from which rows
    are removed. *)
Lemma pad_drop_duplicates_clean_df df :
  rectangular df →
  pad [] (values (drop_duplicates (clean_df df))) =
  values (drop_duplicates (clean_df df)).
Proof.
  intros Hrect.
  apply (pad_id_sublist (length (columns df)) _ (values (clean_df df))).
  - apply drop_flagged_sublist.
  - by apply clean_df_rows_length.
  - rewrite values_clean_df. apply pad_pad.
Qed.

Lemma clean_df_clean_df df :
  rectangular df →
  clean_df (clean_df df) = reset_index (drop_duplicates (clean_df df)).
Proof.
  intros Hrect. unfold clean_df at 1. unfold ffill.
  change (values (reset_index ?d)) with (values d).
  rewrite (pad_drop_duplicates_clean_df df Hrect). done.
Qed.

Lemma reset_index_clean_df df : reset_index (clean_df df) = clean_df df.
Proof.
  unfold clean_df, ffill, reset_index. simpl. by rewrite length_pad.
Qed.

Lemma clean_df_fixed_iff df :
  rectangular df →
  clean_df (clean_df df) = clean_df df ↔ NoDup (values (clean_df df)).
Proof.
  intros Hrect. rewrite (clean_df_clean_df df Hrect). split.
  - intros Heq. apply (f_equal values) in Heq. simpl in Heq.
    by apply drop_duplicated_id in Heq as [? _].
  - intros Hnd.
    assert (values (drop_duplicates (clean_df df)) = values (clean_df df))
      as Hvals.
    { apply drop_duplicated_id. split; [done|]. by intros r _ ?%elem_of_nil. }
    transitivity (reset_index (clean_df df)); [|apply reset_index_clean_df].
    unfold reset_index. by rewrite Hvals.
Qed.

(** C3 (as amended).  For every rectangular table [T],
    [clean(clean(T))] is [clean(T)] without the duplicate rows the forward
    fill created, renumbered; so [clean(clean(T)) = clean(T)] holds exactly
    when the rows of [clean(T)] are pairwise distinct, which is the case
    when [T] has no missing value; and a third application of [clean]
    changes nothing. *)
Theorem clean_df_idempotent_when_distinct df :
  rectangular df →
  clean_df (clean_df df) = reset_index (drop_duplicates (clean_df df)) ∧
  (clean_df (clean_df df) = clean_df df ↔ NoDup (values (clean_df df))) ∧
  (Forall (Forall is_Some) (values df) →
     clean_df (clean_df df) = clean_df df) ∧
  clean_df (clean_df (clean_df df)) = clean_df (clean_df df).
Proof.
  intros Hrect. split; [by apply clean_df_clean_df|].
  split; [by apply clean_df_fixed_iff|]. split.
  - intros Hvalid. apply clean_df_fixed_iff; [done|].
    rewrite values_clean_df, pad_id_valid.
    + apply NoDup_drop_duplicated.
    + by apply drop_duplicates_Forall.
  - apply clean_df_fixed_iff; [by apply clean_df_rectangular|].
    rewrite (clean_df_clean_df df Hrect). apply NoDup_drop_duplicated.
Qed.

(** In a rectangular table, column [j] of the cleaned table is the
    [pad_1d] scan of column [j] of the deduplicated table. *)
Lemma column_clean_df df j :
  rectangular df → j < length (columns df) →
  column j (values (clean_df df)) =
  pad_1d None (column j (values (reset_index (drop_duplicates df)))).
Proof.
  intros [_ Hall] Hj. rewrite values_clean_df.
  change (values (reset_index ?d)) with (values d).
  rewrite column_pad; [done|].
  apply (drop_duplicates_Forall (λ r, j < length r)).
  eapply Forall_impl; [exact Hall|]. simpl. intros r ->. done.
Qed.

Lemma column_lookup_inv j rows i r c :
  rows !! i = Some r → j < length r →
  column j rows !! i = Some c → r !! j = Some c.
Proof.
  intros Hi Hj. rewrite (column_lookup j rows i r Hi). intros [= <-].
  by destruct (lookup_lt_is_Some_2 r j Hj) as [c ->].
Qed.

(** C4.  In a rectangular table, after [clean_df] a cell is missing only
    if the cell at that place and every cell above it in its column were
    missing in the deduplicated table; and a missing cell whose nearest
    valid cell above it, in its column of the deduplicated table, holds
    [x] becomes [x] (in particular when the row just above holds [x]). *)
Theorem clean_df_forward_fill df :
  rectangular df →
  let deduplicated := values (reset_index (drop_duplicates df)) in
  let cleaned := values (clean_df df) in
  (∀ i j r, cleaned !! i = Some r → r !! j = Some None →
     ∀ k rk, k ≤ i → deduplicated !! k = Some rk → rk !! j = Some None) ∧
  (∀ i j k x rk ri,
     deduplicated !! k = Some rk → rk !! j = Some (Some x) →
     k < i → deduplicated !! i = Some ri → ri !! j = Some None →
     (∀ m rm, k < m → m < i →
        deduplicated !! m = Some rm → rm !! j = Some None) →
     ∃ r, cleaned !! i = Some r ∧ r !! j = Some (Some x)).
Proof.
  intros Hrect deduplicated cleaned.
  assert (Forall (λ r, length r = length (columns df)) deduplicated) as Hded.
  { destruct Hrect as [_ Hall].
    by apply (drop_duplicates_Forall (λ r, length r = length (columns df))). }
  pose proof (clean_df_rows_length df Hrect) as Hcl. fold cleaned in Hcl.
  rewrite Forall_lookup in Hded. rewrite Forall_lookup in Hcl.
  split.
  - intros i j r Hi Hj k rk Hk Hrk.
    assert (j < length (columns df)) as Hjn.
    { rewrite <-(Hcl i r Hi). by eapply lookup_lt_Some. }
    assert (column j cleaned !! i = Some None) as Hcol.
    { by rewrite (column_lookup j cleaned i r Hi), Hj. }
    unfold cleaned in Hcol. rewrite (column_clean_df df j Hrect Hjn) in Hcol.
    apply pad_1d_missing in Hcol as [_ Hall].
    apply (column_lookup_inv j deduplicated k); [done| |by apply Hall].
    by rewrite (Hded k rk Hrk).
  - intros i j k x rk ri Hk Hx Hki Hi Hmiss Hbetween.
    assert (j < length (columns df)) as Hjn.
    { rewrite <-(Hded k rk Hk). by eapply lookup_lt_Some. }
    assert (i < length cleaned) as Hlt.
    { unfold cleaned. rewrite values_clean_df, length_pad.
      by eapply lookup_lt_Some. }
    destruct (lookup_lt_is_Some_2 cleaned i Hlt) as [r Hr].
    exists r. split; [done|].
    apply (column_lookup_inv j cleaned i); [done|by rewrite (Hcl i r Hr)|].
    unfold cleaned. rewrite (column_clean_df df j Hrect Hjn).
    fold deduplicated. apply (pad_1d_nearest _ _ k).
    + by rewrite (column_lookup j _ k rk Hk), Hx.
    + lia.
    + intros m Hkm Hmi. destruct (decide (m = i)) as [->|Hne].
      * by rewrite (column_lookup j _ i ri Hi), Hmiss.
      * assert (m < length deduplicated) as Hm.
        { apply lookup_lt_Some in Hi. lia. }
        destruct (lookup_lt_is_Some_2 deduplicated m Hm) as [rm Hrm].
        rewrite (column_lookup j _ m rm Hrm).
        by rewrite (Hbetween m rm Hkm ltac:(lia) Hrm).
Qed.

(** C10.  The rows [drop_duplicates] keeps are, in their order in the
    table, the rows at the positions that hold a first occurrence; the
    forward fill that follows keeps the number of rows and the width of
    each, and leaves every valid cell where and as it was. *)
Theorem clean_df_keeps_first_occurrences_in_order df :
  let kept := values (drop_duplicates df) in
  let cleaned := values (clean_df df) in
  kept = (λ i, values df !!! i) <$>
           filter (first_occurrence (values df))
                  (seq 0 (length (values df))) ∧
  length cleaned = length kept ∧
  (∀ i r, kept !! i = Some r →
     ∃ r', cleaned !! i = Some r' ∧ length r' = length r ∧
           ∀ j v, r !! j = Some (Some v) → r' !! j = Some (Some v)).
Proof.
  intros kept cleaned. split; [|split].
  - apply (drop_duplicated_first_occurrences [] [] (values df)). done.
  - unfold cleaned. by rewrite values_clean_df, length_pad.
  - intros i r Hi.
    assert (i < length cleaned) as Hlt.
    { unfold cleaned. rewrite values_clean_df, length_pad.
      by eapply lookup_lt_Some. }
    destruct (lookup_lt_is_Some_2 cleaned i Hlt) as [r' Hr'].
    exists r'. split; [done|]. unfold cleaned in Hr'.
    rewrite values_clean_df in Hr'. split.
    + destruct (pad_lookup_length _ _ _ _ Hr') as (r0 & Hr0 & Hlen).
      fold kept in Hr0. congruence.
    + intros j v Hj.
      destruct (pad_lookup_valid [] kept i r j v Hi Hj) as (r1 & Hr1 & Hv).
      unfold kept in Hr1. congruence.
Qed.

End cleaner.

(** ** The loader *)

Section loader_properties.
Variable csv_reader :
  list Byte.byte → option string → result (list csv_row).

(** The parser never fails on lines that are not all blank, and the first
    of them fixes the width of the table. *)
Lemma python_parser_content lines first rest :
  filter (λ l, is_blank l = false) lines = first :: rest →
  python_parser lines =
  Ok {| columns := LInt <$> seq 0 (length first);
        index := seq 0 (length (filter (λ l : list string,
                                          length l ≤ length first)
                                       (first :: rest)));
        values := (λ l : list string,
                     (to_cell <$> l)
                       ++ replicate (length first - length l) None)
                  <$> filter (λ l : list string, length l ≤ length first)
                             (first :: rest) |}.
Proof. intros Hcontent. unfold python_parser. by rewrite Hcontent. Qed.

Lemma read_csv_columns raw rows first rest :
  csv_reader raw (delimiter raw) = Ok rows →
  filter (λ l, is_blank l = false) (parsed rows) = first :: rest →
  ∃ df, read_csv csv_reader raw (delimiter raw) = Ok df ∧
        length (columns df) = length first ∧
        values df =
          (λ l : list string,
             (to_cell <$> l) ++ replicate (length first - length l) None)
          <$> filter (λ l : list string, length l ≤ length first)
                     (first :: rest).
Proof.
  intros Hrows Hcontent. unfold read_csv. rewrite Hrows. simpl.
  rewrite (python_parser_content (parsed rows) first rest Hcontent).
  eexists. split; [done|]. split; [|done].
  simpl. by rewrite length_fmap, length_seq.
Qed.

(** C1.  When the first non-blank line of the file has 14 fields, [load]
    returns a table labelled by the 14 Wine names in order, and that first
    line, header-like or not, is the first data row of the table. *)
Theorem load_data_file_wine_headers raw rows first rest :
  csv_reader raw (delimiter raw) = Ok rows →
  filter (λ l, is_blank l = false) (parsed rows) = first :: rest →
  length first = 14 →
  ∃ df, load_data_file csv_reader raw = Ok df ∧
        columns df = LStr <$> WINE_HEADERS ∧
        head (values df) = Some (to_cell <$> first).
Proof.
  intros Hrows Hcontent Hwidth.
  destruct (read_csv_columns raw rows first rest Hrows Hcontent)
    as (df0 & Hread & Hcols & Hvals).
  unfold load_data_file. rewrite Hread. simpl.
  rewrite bool_decide_false by (rewrite Hcols, Hwidth; simpl; lia).
  eexists. split; [done|]. split; [done|]. simpl. rewrite Hvals.
  rewrite filter_cons, decide_True by lia. simpl.
  by rewrite Nat.sub_diag, app_nil_r.
Qed.

(** C2.  When the parsed table has a number of columns other than 14,
    [load] raises the [ValueError] whose message states that number and
    14. *)
Theorem load_data_file_schema_mismatch raw df :
  read_csv csv_reader raw (delimiter raw) = Ok df →
  length (columns df) ≠ 14 →
  load_data_file csv_reader raw =
  Raise (ValueError
           ("Dataset has " +:+ str_of_nat (length (columns df))
              +:+ " columns but Wine dataset requires " +:+ "14" +:+ ".")).
Proof.
  intros Hread Hcols. unfold load_data_file. rewrite Hread. simpl.
  by rewrite bool_decide_true.
Qed.



End loader_properties.

(** The table the loader returns is rectangular. *)
Lemma load_data_file_rectangular csv_reader raw df :
  load_data_file csv_reader raw = Ok df → rectangular df.
Proof.
  unfold load_data_file, read_csv.
  destruct (csv_reader raw (delimiter raw)) as [rows|e]; [|done]. simpl.
  unfold python_parser.
  destruct (filter (λ l, is_blank l = false) (parsed rows))
    as [|first rest] eqn:Hc;
    [done|]. simpl.
  case_bool_decide as Hcols; [done|]. intros [= <-].
  rewrite length_fmap, length_seq in Hcols.
  split; simpl.
  - by rewrite length_seq, length_fmap.
  - apply Forall_fmap, Forall_forall. intros l Hl. simpl.
    apply list_elem_of_filter in Hl as [Hl _].
    rewrite length_app, !length_fmap, length_replicate. simpl in *. lia.
Qed.

(** Decoding a file of ASCII bytes without carriage return gives the
    bytes themselves. *)
Lemma utf8_decode_ignore_ascii (bs : list N) :
  Forall (λ b, (b < 128)%N) bs → utf8_decode_ignore bs = bs.
Proof.
  induction 1 as [|b bs Hb _ IH]; [done|]. simpl.
  apply N.ltb_lt in Hb. rewrite Hb. by rewrite IH.
Qed.

Lemma translate_newlines_no_CR (t : text) :
  Forall (λ c, c ≠ CR) t → translate_newlines t = t.
Proof.
  induction 1 as [|c t Hc _ IH]; [done|]. simpl.
  apply N.eqb_neq in Hc. rewrite Hc. by rewrite IH.
Qed.

Lemma read_text_ascii raw :
  Forall (λ b, (Byte.to_N b < 128)%N ∧ Byte.to_N b ≠ CR) raw →
  read_text raw = Byte.to_N <$> raw.
Proof.
  intros Hall. unfold read_text.
  rewrite utf8_decode_ignore_ascii, translate_newlines_no_CR; [done| |].
  - apply Forall_fmap. eapply Forall_impl; [exact Hall|]. by intros b [_ ?].
  - apply Forall_fmap. eapply Forall_impl; [exact Hall|]. by intros b [? _].
Qed.

(** On such a file the first 2048 characters are the first 2048 bytes. *)
Lemma delimiter_of_first_bytes_ascii raw :
  Forall (λ b, (Byte.to_N b < 128)%N ∧ Byte.to_N b ≠ CR) raw →
  delimiter_of_first_bytes raw = delimiter raw.
Proof.
  intros Hall. unfold delimiter_of_first_bytes, delimiter.
  unfold sample_of_first_bytes, sample.
  rewrite (read_text_ascii raw Hall).
  rewrite (read_text_ascii (take 2048 raw)) by by apply Forall_take.
  by rewrite fmap_take.
Qed.


(** ** The writer *)

Section writer_properties.
Variable write_fault :
  files → list string → list Byte.byte
  → option (exception * option (list Byte.byte)).
Variable to_csv : DataFrame string → list Byte.byte.
Variable openpyxl : option (DataFrame string → list Byte.byte).

(** A [.csv] target receives the serialised table, whatever was there,
    when the write goes through. *)
Lemma save_output_csv (df : DataFrame string) (output_path : Path)
    (fs : files) :
  lower (suffix output_path) = ".csv"%string →
  write_fault fs output_path (to_csv df) = None →
  save_output write_fault to_csv openpyxl df output_path fs =
  (Ok (), <[output_path := to_csv df]> fs).
Proof.
  intros Hext Hwrite. unfold save_output. rewrite Hext.
  rewrite decide_False by done. rewrite decide_True by done.
  unfold write_file. by rewrite Hwrite.
Qed.

(** C7.  When the lower-cased suffix of the output path is neither [.csv]
    nor [.xlsx], [save] raises the unsupported-format [ValueError] and the
    files are left as they were: nothing is written at the output path. *)
Theorem save_output_unsupported (df : DataFrame string) (output_path : Path)
    (fs : files) :
  lower (suffix output_path) ≠ ".csv"%string →
  lower (suffix output_path) ≠ ".xlsx"%string →
  save_output write_fault to_csv openpyxl df output_path fs =
  (Raise (ValueError unsupported_message), fs).
Proof.
  intros Hcsv Hxlsx. unfold save_output. by rewrite !decide_False.
Qed.

(** C8.  When the output path asks for [.xlsx] and the spreadsheet package
    is absent, [save] raises an [ImportError] whose message says to save
    the file as CSV instead; nothing is written. *)
Theorem save_output_missing_dependency (df : DataFrame string) (output_path : Path)
    (fs : files) :
  lower (suffix output_path) = ".xlsx"%string →
  save_output write_fault to_csv None df output_path fs =
    (Raise (ImportError openpyxl_message), fs) ∧
  contains "Or save the file as CSV instead." openpyxl_message = true.
Proof.
  intros Hext. split; [|by vm_compute].
  unfold save_output. rewrite Hext. by rewrite decide_True.
Qed.

End writer_properties.

(** ** Scenarios *)

(** [gap_table] has 14 cells in each of its two rows. *)
Lemma gap_table_rectangular : rectangular gap_table.
Proof. split; [done|]. by repeat constructor. Qed.

(** C3, counterexample.  A record and its copy with an empty third field
    are two distinct rows; the forward fill makes them equal, so cleaning
    the cleaned table removes one of them. *)
Lemma clean_df_not_idempotent :
  load_data_file plain_reader gap_file = Ok gap_table ∧
  clean_df (clean_df gap_table) ≠ clean_df gap_table.
Proof. split; [vm_compute; reflexivity|]. vm_compute. discriminate. Qed.

(** On [gap_table] a third cleaning changes nothing. *)
Lemma clean_df_idempotent_when_distinct_witness :
  rectangular gap_table ∧
  clean_df (clean_df (clean_df gap_table)) = clean_df (clean_df gap_table).
Proof.
  split; [apply gap_table_rectangular|].
  apply (clean_df_idempotent_when_distinct gap_table gap_table_rectangular).
Defined.

(** The empty third field of the second record takes the value above it. *)
Lemma clean_df_forward_fill_witness :
  rectangular gap_table ∧
  ∃ r, values (clean_df gap_table) !! 1 = Some r ∧
       r !! 2 = Some (Some "1.71"%string).
Proof.
  split; [apply gap_table_rectangular|].
  destruct (clean_df_forward_fill gap_table gap_table_rectangular)
    as [_ Hfill].
  apply (Hfill 1 2 0 "1.71"%string wine_row wine_row_gap);
    [done|done|lia|done|done|].
  intros m rm Hlo Hhi. lia.
Defined.

(** The header-like first line of [header_file] is row 0 of the table. *)
Lemma load_data_file_wine_headers_witness :
  ∃ df, load_data_file plain_reader header_file = Ok df ∧
        columns df = LStr <$> WINE_HEADERS ∧
        head (values df) = Some (to_cell <$> WINE_HEADERS).
Proof.
  eapply (load_data_file_wine_headers plain_reader header_file).
  - vm_compute. reflexivity.
  - vm_compute. reflexivity.
  - reflexivity.
Defined.

(** The file with 15 fields is refused with both counts in the message. *)
Lemma load_data_file_schema_mismatch_witness :
  load_data_file plain_reader fifteen_file =
  Raise (ValueError "Dataset has 15 columns but Wine dataset requires 14.").
Proof.
  etransitivity.
  - eapply (load_data_file_schema_mismatch plain_reader fifteen_file).
    + vm_compute. reflexivity.
    + vm_compute. lia.
  - vm_compute. reflexivity.
Defined.




(** A [.txt] target is refused and no file appears. *)
Lemma save_output_unsupported_witness :
  save_output no_fault plain_to_csv None gap_table
    ["out"; "wine.txt"]%string ∅ =
  (Raise (ValueError unsupported_message), ∅).
Proof.
  apply save_output_unsupported; vm_compute; discriminate.
Defined.

(** An [.XLSX] target without the spreadsheet package. *)
Lemma save_output_missing_dependency_witness :
  save_output no_fault plain_to_csv None gap_table
    ["out"; "wine.XLSX"]%string ∅ =
    (Raise (ImportError openpyxl_message), ∅) ∧
  contains "Or save the file as CSV instead." openpyxl_message = true.
Proof.
  apply save_output_missing_dependency. vm_compute. reflexivity.
Defined.

(** * Further properties *)

(** ** Shape and fixed points of the cleaner *)

Section cleaner_shape.
Context {V : Type} `{EqDecision V}.
Implicit Types (df : DataFrame V) (r : row V) (rows : list (row V)).

Lemma duplicated_from_NoDup seen rows :
  NoDup rows → (∀ r, r ∈ rows → r ∉ seen) →
  duplicated_from seen rows = replicate (length rows) false.
Proof.
  intros Hnd. revert seen. induction Hnd as [|r rows Hr Hnd IH];
    intros seen Hseen; simpl; [done|].
  rewrite bool_decide_false by (apply Hseen; by left). f_equal.
  apply IH. intros r' Hr'. apply not_elem_of_cons. split.
  - intros ->. done.
  - apply Hseen. by right.
Qed.

Lemma drop_flagged_none {A} n (xs : list A) :
  drop_flagged (replicate n false) xs = take n xs.
Proof.
  revert xs. induction n as [|n IH]; intros [|x xs]; simpl; try done.
  by rewrite IH.
Qed.

Lemma length_drop_flagged_mono {A B} flags (xs : list A) (ys : list B) :
  length flags = length ys →
  length (drop_flagged flags xs) ≤ length (drop_flagged flags ys).
Proof.
  revert xs ys. induction flags as [|b flags IH]; intros xs ys Hlen.
  - by destruct xs.
  - destruct ys as [|y ys]; [done|]. injection Hlen as Hlen.
    destruct xs as [|x xs]; simpl; [lia|].
    specialize (IH xs ys Hlen). destruct b; simpl; lia.
Qed.

(** X1.  [clean_df] keeps the column labels, never returns more rows than
    it was given and numbers the rows it returns 0, 1, 2, ... *)
Theorem clean_df_shape df :
  columns (clean_df df) = columns df ∧
  length (values (clean_df df)) ≤ length (values df) ∧
  index (clean_df df) = seq 0 (length (values (clean_df df))).
Proof.
  split; [done|]. split.
  - rewrite values_clean_df, length_pad. apply length_drop_flagged_le.
  - simpl. by rewrite length_pad.
Qed.

(** X2.  The number of rows of the cleaned table is the number of
    distinct rows of the table. *)
Theorem clean_df_row_count df :
  length (values (clean_df df)) = length (remove_dups (values df)).
Proof.
  rewrite values_clean_df, length_pad. apply Permutation_length.
  apply NoDup_Permutation.
  - apply NoDup_drop_duplicated.
  - apply NoDup_remove_dups.
  - intros r. simpl. unfold duplicated.
    rewrite elem_of_drop_duplicated, elem_of_remove_dups, elem_of_nil. tauto.
Qed.

(** X3.  [drop_duplicates] returns pairwise distinct rows, and a row is in
    its result exactly when it is in the table: no row is invented and no
    distinct row is lost. *)
Theorem drop_duplicates_rows df :
  NoDup (values (drop_duplicates df)) ∧
  ∀ r, r ∈ values (drop_duplicates df) ↔ r ∈ values df.
Proof.
  split; [apply NoDup_drop_duplicated|]. intros r. simpl. unfold duplicated.
  rewrite elem_of_drop_duplicated, elem_of_nil. tauto.
Qed.

(** X4.  [drop_duplicates] is idempotent, index labels included. *)
Theorem drop_duplicates_idempotent df :
  drop_duplicates (drop_duplicates df) = drop_duplicates df.
Proof.
  unfold drop_duplicates at 1. unfold duplicated.
  rewrite duplicated_from_NoDup;
    [|apply NoDup_drop_duplicated|by intros r _ ?%elem_of_nil].
  rewrite !drop_flagged_none, !take_ge; [by destruct df|done|].
  simpl. apply length_drop_flagged_mono.
  unfold duplicated. by rewrite length_duplicated_from.
Qed.

(** X5.  [ffill] is idempotent: a filled table has nothing left to
    fill. *)
Theorem ffill_idempotent df : ffill (ffill df) = ffill df.
Proof. unfold ffill. simpl. by rewrite pad_pad. Qed.

(** X6.  In a cleaned rectangular table the missing cells of a column are
    at its top: above a missing cell every cell of the column is
    missing, so no gap is left below a value. *)
Theorem clean_df_no_gap_below_value df i j k r rk :
  rectangular df → k ≤ i →
  values (clean_df df) !! i = Some r → r !! j = Some None →
  values (clean_df df) !! k = Some rk → rk !! j = Some None.
Proof.
  intros Hrect Hki Hi Hj Hk.
  pose proof (clean_df_rows_length df Hrect) as Hcl.
  rewrite Forall_lookup in Hcl.
  assert (j < length (columns df)) as Hjn.
  { rewrite <-(Hcl i r Hi). by eapply lookup_lt_Some. }
  assert (column j (values (clean_df df)) !! i = Some None) as Hcol.
  { by rewrite (column_lookup j _ i r Hi), Hj. }
  rewrite (column_clean_df df j Hrect Hjn) in Hcol.
  apply pad_1d_missing in Hcol as [_ Hall].
  apply (column_lookup_inv j (values (clean_df df)) k);
    [done|by rewrite (Hcl k rk Hk)|].
  rewrite (column_clean_df df j Hrect Hjn). apply pad_1d_carry.
  intros m Hm. apply Hall. lia.
Qed.

(** X7.  The first row of a table is never dropped or changed by
    [clean_df]. *)
Theorem clean_df_first_row df :
  head (values (clean_df df)) = head (values df).
Proof.
  rewrite values_clean_df. simpl. unfold duplicated.
  destruct (values df) as [|r rows]; [done|]. simpl. f_equal.
  apply fill_row_id. intros j _. by rewrite lookup_nil.
Qed.

(** X8.  On a table whose rows are pairwise distinct and have no missing
    cell, [clean_df] keeps the rows as they are. *)
Theorem clean_df_unchanged df :
  NoDup (values df) → Forall (Forall is_Some) (values df) →
  values (clean_df df) = values df.
Proof.
  intros Hnd Hvalid.
  assert (values (drop_duplicates df) = values df) as Hdd.
  { apply drop_duplicated_id. split; [done|]. by intros r _ ?%elem_of_nil. }
  rewrite values_clean_df, Hdd. by apply pad_id_valid.
Qed.

End cleaner_shape.

(** ** What the loader returns and when it fails *)

Section loader_outcomes.
Variable csv_reader :
  list Byte.byte → option string → result (list csv_row).

(** A successful load comes from a tokenized file whose first non-blank
    line has 14 fields. *)
Lemma load_data_file_inv raw df :
  load_data_file csv_reader raw = Ok df →
  ∃ rows first rest,
    csv_reader raw (delimiter raw) = Ok rows ∧
    filter (λ l, is_blank l = false) (parsed rows) = first :: rest ∧
    length first = 14 ∧
    columns df = LStr <$> WINE_HEADERS ∧
    index df = seq 0 (length (values df)) ∧
    values df =
      (λ l : list string, (to_cell <$> l) ++ replicate (14 - length l) None)
      <$> filter (λ l : list string, length l ≤ 14) (first :: rest).
Proof.
  unfold load_data_file, read_csv.
  destruct (csv_reader raw (delimiter raw)) as [rows|e]; [|done]. simpl.
  unfold python_parser.
  destruct (filter (λ l, is_blank l = false) (parsed rows))
    as [|first rest] eqn:Hc; [done|]. simpl.
  case_bool_decide as Hcols; [done|]. intros [= <-].
  rewrite length_fmap, length_seq in Hcols. simpl in Hcols.
  exists rows, first, rest. rewrite Hcols. simpl.
  by rewrite length_fmap.
Qed.

(** X9.  Every table the loader returns carries the 14 Wine labels, has
    exactly 14 cells in each row and rows numbered 0, 1, 2, ...; cleaning
    it keeps the labels and the 14 cells of each row. *)
Theorem load_data_file_table_invariant raw df :
  load_data_file csv_reader raw = Ok df →
  columns df = LStr <$> WINE_HEADERS ∧
  index df = seq 0 (length (values df)) ∧
  Forall (λ r, length r = 14) (values df) ∧
  columns (clean_df df) = LStr <$> WINE_HEADERS ∧
  Forall (λ r, length r = 14) (values (clean_df df)).
Proof.
  intros Hload.
  destruct (load_data_file_inv raw df Hload)
    as (rows & first & rest & _ & _ & _ & Hcols & Hidx & Hvals).
  assert (Forall (λ r : row string, length r = 14) (values df)) as Hrows.
  { rewrite Hvals. apply Forall_fmap, Forall_forall. intros l Hl. simpl.
    apply list_elem_of_filter in Hl as [Hl _].
    rewrite length_app, length_fmap, length_replicate. lia. }
  split; [done|]. split; [done|]. split; [done|]. split; [done|].
  rewrite values_clean_df. apply pad_Forall_length.
  by apply (drop_duplicates_Forall (λ r, length r = 14)).
Qed.

End loader_outcomes.

(** ** A comma among the first bytes *)

Ltac refute_comma :=
  exfalso;
  repeat match goal with
         | H : _ = true |- _ => vm_compute in H; discriminate H
         | H : _ = false |- _ => vm_compute in H; discriminate H
         | H : _ = true |- _ => clear H
         | H : _ = false |- _ => clear H
         end.

(** Follows the comma through one unfolding of [f]: the bytes consumed
    before it are not commas, and what is left is handled by [IH]. *)
Ltac find_comma f IH :=
  match goal with
  | H : [] !! _ = Some _ |- _ => by rewrite lookup_nil in H
  | H : ?l !! ?p = Some comma |- context [f ?l] =>
      let q := fresh "q" in
      let Hq := fresh "Hq" in
      let Hl := fresh "Hl" in
      destruct (IH l p ltac:(simpl in *; lia) H) as (q & Hq & Hl);
      first [ exists q; split; [lia | exact Hl]
            | exists (S q); split; [lia | exact Hl] ]
  | H : (_ :: _) !! ?p = Some comma |- _ =>
      destruct p as [|?]; simpl in H;
      [ injection H as ->;
        first [ by (exists 0; split; [lia | reflexivity]) | refute_comma ]
      | find_comma f IH ]
  end.

(** Decoding never loses a comma and never moves it to the right. *)
Lemma utf8_decode_ignore_keeps_comma n bs p :
  length bs ≤ n → bs !! p = Some comma →
  ∃ q, q ≤ p ∧ utf8_decode_ignore bs !! q = Some comma.
Proof.
  revert bs p. induction n as [|n IH]; intros bs p Hlen Hp.
  - destruct bs; [done | simpl in Hlen; lia].
  - destruct bs as [|ch s1]; [done|]. simpl.
    repeat case_match; subst; find_comma utf8_decode_ignore IH.
Qed.

Lemma translate_newlines_keeps_comma n t p :
  length t ≤ n → t !! p = Some comma →
  ∃ q, q ≤ p ∧ translate_newlines t !! q = Some comma.
Proof.
  revert t p. induction n as [|n IH]; intros t p Hlen Hp.
  - destruct t; [done | simpl in Hlen; lia].
  - destruct t as [|c t']; [done|]. simpl.
    repeat case_match; subst; find_comma translate_newlines IH.
Qed.

(** X12.  Whatever else the file holds (bytes that do not decode,
    multi-byte characters, carriage returns), a comma byte among the
    first 2048 bytes of the file makes the comma the delimiter. *)
Theorem comma_byte_in_first_bytes raw p :
  p < 2048 → raw !! p = Some ","%byte → delimiter raw = Some ","%string.
Proof.
  intros Hp Hraw.
  assert ((Byte.to_N <$> raw) !! p = Some comma) as Hbyte.
  { by rewrite list_lookup_fmap, Hraw. }
  destruct (utf8_decode_ignore_keeps_comma _ _ p (Nat.le_refl _) Hbyte)
    as (q & Hq & Hdec).
  destruct (translate_newlines_keeps_comma _ _ q (Nat.le_refl _) Hdec)
    as (q' & Hq' & Htext).
  unfold delimiter. rewrite bool_decide_true; [done|].
  unfold sample. apply list_elem_of_lookup. exists q'.
  apply lookup_take_Some. split; [done|lia].
Qed.

(** ** What the writer writes *)

Lemma rfind_append_sep (c : ascii) (stem ext : string) :
  rfind c ext = None →
  rfind c (stem +:+ String c ext) = Some (String.length stem).
Proof.
  intros Hext. induction stem as [|a stem IH]; simpl.
  - rewrite Hext. by rewrite decide_True.
  - by rewrite IH.
Qed.

Lemma string_from_append (stem s : string) :
  string_from (String.length stem) (stem +:+ s) = s.
Proof. induction stem as [|a stem IH]; simpl; [by destruct s|done]. Qed.

Lemma length_append (s1 s2 : string) :
  String.length (s1 +:+ s2) = String.length s1 + String.length s2.
Proof. induction s1 as [|a s1 IH]; simpl; [done|]. by rewrite IH. Qed.

(** The suffix of [stem.ext] is [.ext] when [ext] is not empty and has no
    dot, and [stem] is not empty. *)
Lemma suffix_stem_ext (dir : list string) (stem ext : string) :
  stem ≠ ""%string → ext ≠ ""%string → rfind "."%char ext = None →
  suffix (dir ++ [stem +:+ String "."%char ext]) = String "."%char ext.
Proof.
  intros Hstem Hext Hdot. unfold suffix, name. rewrite last_snoc. simpl.
  rewrite (rfind_append_sep _ stem ext Hdot), string_from_append.
  rewrite bool_decide_true; [done|].
  rewrite length_append. simpl.
  destruct stem; [done|]. destruct ext; [done|]. simpl. lia.
Qed.

Lemma lower_csv_no_dot (ext : string) :
  lower ext = "csv"%string → ext ≠ ""%string ∧ rfind "."%char ext = None.
Proof.
  destruct ext as [|a [|b [|c [|d ext]]]]; try done. simpl.
  intros [= Ha Hb Hc]. split; [done|].
  destruct (decide (c = "."%char)) as [->|]; [done|].
  destruct (decide (b = "."%char)) as [->|]; [done|].
  destruct (decide (a = "."%char)) as [->|]; done.
Qed.

Section writer_outcomes.
Variable write_fault :
  files → list string → list Byte.byte
  → option (exception * option (list Byte.byte)).
Variable to_csv : DataFrame string → list Byte.byte.
Variable openpyxl : option (DataFrame string → list Byte.byte).

(** X13.  With a [.csv] target (in any capitalisation of the suffix) and
    a write that goes through, [save] succeeds whether or not the
    spreadsheet package is there: the file at the output path becomes the
    CSV text of the table, replacing what was there, and every other file
    is left alone. *)
Theorem save_output_writes_csv (df : DataFrame string) (output_path : Path)
    (fs : files) :
  lower (suffix output_path) = ".csv"%string →
  write_fault fs output_path (to_csv df) = None →
  ∃ fs', save_output write_fault to_csv openpyxl df output_path fs
           = (Ok (), fs') ∧
         fs' !! output_path = Some (to_csv df) ∧
         ∀ other, other ≠ output_path → fs' !! other = fs !! other.
Proof.
  intros Hext Hwrite. eexists. split; [by apply save_output_csv|].
  split; [by rewrite lookup_insert_eq|].
  intros other Hother. by rewrite lookup_insert_ne.
Qed.

(** X14.  With an [.xlsx] target, the spreadsheet package installed and a
    write that goes through, [save] succeeds: the file at the output
    path becomes the workbook the package writes for the table and every
    other file is left alone. *)
Theorem save_output_writes_xlsx (write_workbook : DataFrame string →
                                                  list Byte.byte)
    (df : DataFrame string) (output_path : Path) (fs : files) :
  lower (suffix output_path) = ".xlsx"%string →
  write_fault fs output_path (write_workbook df) = None →
  ∃ fs', save_output write_fault to_csv (Some write_workbook) df
           output_path fs = (Ok (), fs') ∧
         fs' !! output_path = Some (write_workbook df) ∧
         ∀ other, other ≠ output_path → fs' !! other = fs !! other.
Proof.
  intros Hext Hwrite. eexists. split.
  - unfold save_output. rewrite Hext. rewrite decide_True by done.
    unfold to_excel, write_file. by rewrite Hwrite.
  - split; [by rewrite lookup_insert_eq|].
    intros other Hother. by rewrite lookup_insert_ne.
Qed.

Lemma write_file_keeps_others (fs : files) (path : Path)
    (content : list Byte.byte) other :
  other ≠ path →
  (write_file write_fault fs path content).2 !! other = fs !! other.
Proof.
  intros Hother. unfold write_file.
  destruct (write_fault fs path content) as [[e [partial|]]|]; simpl;
    try done; by rewrite lookup_insert_ne.
Qed.

(** What a write that raises leaves behind. *)
Lemma write_file_raise (fs : files) (path : Path)
    (content : list Byte.byte) e :
  (write_file write_fault fs path content).1 = Raise e →
  (write_file write_fault fs path content).2 = fs ∨
  ∃ partial,
    write_fault fs path content = Some (e, Some partial) ∧
    (write_file write_fault fs path content).2 = <[path := partial]> fs.
Proof.
  unfold write_file.
  destruct (write_fault fs path content) as [[e' [partial|]]|]; simpl;
    [|by left|done].
  intros [= ->]. right. by exists partial.
Qed.

(** Files other than the target are out of reach of [save]. *)
Lemma save_output_keeps_others (df : DataFrame string) (output_path : Path)
    (fs : files) other :
  other ≠ output_path →
  (save_output write_fault to_csv openpyxl df output_path fs).2 !! other
  = fs !! other.
Proof.
  intros Hother. unfold save_output, to_excel.
  destruct (decide (lower (suffix output_path) = ".xlsx"%string)).
  - destruct openpyxl as [write_workbook|]; [|done].
    pose proof (write_file_keeps_others fs output_path (write_workbook df)
                  other Hother) as Hkeep.
    by destruct (write_file _ _ _ _) as [[[]|[]] fs'].
  - destruct (decide (lower (suffix output_path) = ".csv"%string)); [|done].
    by apply write_file_keeps_others.
Qed.

(** What [save] leaves behind when it raises. *)
Lemma save_output_raise (df : DataFrame string) (output_path : Path)
    (fs : files) e :
  (save_output write_fault to_csv openpyxl df output_path fs).1 = Raise e →
  (save_output write_fault to_csv openpyxl df output_path fs).2 = fs ∨
  ∃ e' content partial,
    write_fault fs output_path content = Some (e', Some partial) ∧
    (save_output write_fault to_csv openpyxl df output_path fs).2
    = <[output_path := partial]> fs.
Proof.
  unfold save_output, to_excel.
  destruct (decide (lower (suffix output_path) = ".xlsx"%string)).
  - destruct openpyxl as [write_workbook|]; [|by left].
    pose proof (write_file_raise fs output_path (write_workbook df)) as Hw.
    destruct (write_file _ _ _ _) as [[[]|e'] fs'] eqn:Heq; [done|].
    simpl in Hw. intros _.
    destruct (Hw e' eq_refl) as [->|(partial & Hfault & ->)].
    + left. by destruct e'.
    + right. exists e', (write_workbook df), partial. split; [done|].
      by destruct e'.
  - destruct (decide (lower (suffix output_path) = ".csv"%string));
      [|by left].
    intros He. destruct (write_file_raise fs output_path (to_csv df) e He)
      as [?|(partial & Hfault & Heq)]; [by left|].
    right. by exists e, (to_csv df), partial.
Qed.

(** X15.  [save] never creates, changes or removes a file other than the
    one at the output path.  When it raises, the files are as they were,
    unless a write failed after it had opened the target: then the
    target alone holds what the failed write left. *)
Theorem save_output_only_touches_target (df : DataFrame string)
    (output_path : Path) (fs : files) :
  (∀ other, other ≠ output_path →
     (save_output write_fault to_csv openpyxl df output_path fs).2 !! other
     = fs !! other) ∧
  (∀ e, (save_output write_fault to_csv openpyxl df output_path fs).1
        = Raise e →
     (save_output write_fault to_csv openpyxl df output_path fs).2 = fs ∨
     ∃ e' content partial,
       write_fault fs output_path content = Some (e', Some partial) ∧
       (save_output write_fault to_csv openpyxl df output_path fs).2
       = <[output_path := partial]> fs).
Proof.
  split.
  - intros other Hother. by apply save_output_keeps_others.
  - intros e. apply save_output_raise.
Qed.

(** X16.  A target named [stem.ext], where [ext] is [csv] in any mix of
    upper and lower case and [stem] is a non-empty name without a slash,
    is written as CSV when the write goes through. *)
Theorem save_output_csv_any_case (df : DataFrame string)
    (dir : list string) (stem ext : string) (fs : files) :
  stem ≠ ""%string → rfind "/"%char stem = None →
  lower ext = "csv"%string →
  write_fault fs (dir ++ [stem +:+ String "."%char ext]) (to_csv df) = None →
  save_output write_fault to_csv openpyxl df
    (dir ++ [stem +:+ String "."%char ext]) fs
  = (Ok (), <[dir ++ [stem +:+ String "."%char ext] := to_csv df]> fs).
Proof.
  intros Hstem _ Hext Hwrite. apply save_output_csv; [|done].
  destruct (lower_csv_no_dot ext Hext) as [Hne Hdot].
  rewrite (suffix_stem_ext dir stem ext Hstem Hne Hdot). simpl.
  by rewrite Hext.
Qed.

(** X17.  A target whose name has no dot, or whose only dot is its first
    character (a file named [.csv]), or whose last dot is its last
    character, has no suffix: [save] refuses it as an unsupported format
    and writes nothing. *)
Theorem save_output_no_suffix (df : DataFrame string) (output_path : Path)
    (fs : files) :
  rfind "."%char (name output_path) = None ∨
  rfind "."%char (name output_path) = Some 0 ∨
  (∃ i, rfind "."%char (name output_path) = Some i ∧
        i + 1 = String.length (name output_path)) →
  save_output write_fault to_csv openpyxl df output_path fs =
  (Raise (ValueError unsupported_message), fs).
Proof.
  intros Hname.
  assert (suffix output_path = ""%string) as Hsuffix.
  { unfold suffix. destruct Hname as [->|[->|(i & -> & Hi)]]; [done|done|].
    rewrite bool_decide_false; [done|lia]. }
  unfold save_output. rewrite Hsuffix. by rewrite !decide_False.
Qed.

End writer_outcomes.

(** ** The conversion run from the form *)

Section form_properties.
Variable csv_reader :
  list Byte.byte → option string → result (list csv_row).
Variable write_fault :
  files → list string → list Byte.byte
  → option (exception * option (list Byte.byte)).
Variable to_csv : DataFrame string → list Byte.byte.
Variable openpyxl : option (DataFrame string → list Byte.byte).
Variable to_path : string → list string.
Variable no_such_file : list string → string.

Local Abbreviation convert' :=
  (convert csv_reader write_fault to_csv openpyxl to_path no_such_file).
Local Abbreviation load_at :=
  (load_data_file_at csv_reader no_such_file).

(** The run, case by case. *)
Lemma convert_cases (form : Form) (fs : files) :
  input_var form ≠ ""%string → output_var form ≠ ""%string →
  convert' form fs =
  match load_at fs (to_path (input_var form)) with
  | Raise e => (failed e form, fs)
  | Ok df =>
    match save_output write_fault to_csv openpyxl (clean_df df)
                      (to_path (output_var form)) fs with
    | (Raise e, fs') => (failed e form, fs')
    | (Ok _, fs') => (succeeded form, fs')
    end
  end.
Proof.
  intros Hin Hout. unfold convert. rewrite !decide_False by done.
  unfold run_pipeline. simpl.
  destruct (load_at fs (to_path (input_var form))) as [df|e]; [|done].
  by destruct (save_output _ _ _ _ _ _) as [[[]|e] fs'].
Qed.

(** X18.  A run without an input path, or without an output path, only
    shows an [Error] box: the progress bar, the files and the earlier
    boxes stay as they are and nothing is read. *)
Theorem convert_requires_paths (form : Form) (fs : files) :
  input_var form = ""%string ∨ output_var form = ""%string →
  ∃ message,
    convert' form fs = (show (showerror "Error" message) form, fs) ∧
    (input_var form = ""%string →
       message = "Select an input .data file."%string) ∧
    (input_var form ≠ ""%string →
       message = "Choose an output file path."%string).
Proof.
  intros Hempty. unfold convert.
  destruct (decide (input_var form = ""%string)) as [Hin|Hin].
  - eexists. split; [done|]. split; [done|]. done.
  - destruct Hempty as [?|Hout]; [done|]. rewrite decide_True by done.
    eexists. split; [done|]. split; [done|]. done.
Qed.


(** X20.  When the load fails (missing file, tokenizer error, empty
    file, wrong number of columns), the run shows one
    [Conversion Failed] box with the text of the error, puts the progress
    bar back to 0 and writes no file. *)
Theorem convert_load_failure (form : Form) (fs : files) e :
  input_var form ≠ ""%string → output_var form ≠ ""%string →
  load_at fs (to_path (input_var form)) = Raise e →
  convert' form fs = (failed e form, fs).
Proof.
  intros Hin Hout Hload. rewrite (convert_cases form fs Hin Hout).
  by rewrite Hload.
Qed.

(** The two ways a run with both paths set can end. *)
Lemma convert_ends (form : Form) (fs : files) :
  input_var form ≠ ""%string → output_var form ≠ ""%string →
  (∃ e fs', convert' form fs = (failed e form, fs') ∧
     (fs' = fs ∨
      ∃ e' content partial,
        write_fault fs (to_path (output_var form)) content
        = Some (e', Some partial) ∧
        fs' = <[to_path (output_var form) := partial]> fs)) ∨
  (∃ fs', convert' form fs = (succeeded form, fs')).
Proof.
  intros Hin Hout. rewrite (convert_cases form fs Hin Hout).
  destruct (load_at fs (to_path (input_var form))) as [df|e].
  2: { left. exists e, fs. split; [done|]. by left. }
  pose proof (save_output_raise write_fault to_csv openpyxl (clean_df df)
                (to_path (output_var form)) fs) as Hfail.
  destruct (save_output _ _ _ _ _ _) as [[[]|e] fs'].
  - right. by exists fs'.
  - left. exists e, fs'. split; [done|]. by apply (Hfail e).
Qed.

(** X21.  Every run with both paths set ends in one of two ways: either
    one [Success] box with the progress bar at 100 and green, or one
    [Conversion Failed] box with the progress bar at 0; in the second
    case the files are exactly as before, unless a write failed after it
    had opened the target, which then alone holds what the failed write
    left.  The path variables are never changed. *)
Theorem convert_outcome (form : Form) (fs : files) :
  input_var form ≠ ""%string → output_var form ≠ ""%string →
  (∃ e fs', convert' form fs = (failed e form, fs') ∧
     (fs' = fs ∨
      ∃ e' content partial,
        write_fault fs (to_path (output_var form)) content
        = Some (e', Some partial) ∧
        fs' = <[to_path (output_var form) := partial]> fs)) ∨
  (∃ fs', convert' form fs = (succeeded form, fs')).
Proof. intros Hin Hout. by apply convert_ends. Qed.

(** X22.  No run creates, changes or removes a file other than the one at
    the output path; in particular the input file is left as it is
    unless it is also the target. *)
Theorem convert_only_touches_output (form : Form) (fs : files) other :
  other ≠ to_path (output_var form) →
  (convert' form fs).2 !! other = fs !! other.
Proof.
  intros Hother.
  destruct (decide (input_var form = ""%string)) as [Hin|Hin];
    [unfold convert; by rewrite decide_True|].
  destruct (decide (output_var form = ""%string)) as [Hout|Hout];
    [unfold convert; by rewrite decide_False, decide_True|].
  rewrite (convert_cases form fs Hin Hout).
  destruct (load_at fs (to_path (input_var form))) as [df|e]; [|done].
  pose proof (save_output_keeps_others write_fault to_csv openpyxl
                (clean_df df) (to_path (output_var form)) fs other Hother)
    as Hkeep.
  by destruct (save_output _ _ _ _ _ _) as [[[]|e] fs'].
Qed.

(** X25.  When the input loads, the target is [.csv] and the write is
    refused before the target is opened (a missing directory, a refused
    permission), the run shows one [Conversion Failed] box with the text
    of that error, puts the progress bar back to 0 and leaves the files
    as they were. *)
Theorem convert_write_refused (form : Form) (fs : files) raw df e :
  input_var form ≠ ""%string → output_var form ≠ ""%string →
  fs !! to_path (input_var form) = Some raw →
  load_data_file csv_reader raw = Ok df →
  lower (suffix (to_path (output_var form))) = ".csv"%string →
  (∀ content,
     write_fault fs (to_path (output_var form)) content = Some (e, None)) →
  convert' form fs = (failed e form, fs).
Proof.
  intros Hin Hout Hraw Hload Hext Hwrite.
  rewrite (convert_cases form fs Hin Hout).
  unfold load_data_file_at. rewrite Hraw, Hload.
  unfold save_output. rewrite Hext.
  rewrite decide_False by done. rewrite decide_True by done.
  unfold write_file. by rewrite Hwrite.
Qed.

(** X24.  Once both file dialogs have returned a path, a run is never
    stopped by the path checks, also when a dialog is cancelled
    afterwards: it ends with [Success] or [Conversion Failed] for the
    paths chosen. *)
Theorem browse_then_convert (chosen_input chosen_output : string)
    (form : Form) (fs : files) :
  chosen_input ≠ ""%string → chosen_output ≠ ""%string →
  let form' :=
    browse_output "" (browse_input ""
      (browse_output chosen_output (browse_input chosen_input form))) in
  input_var form' = chosen_input ∧ output_var form' = chosen_output ∧
  ((∃ e fs', convert' form' fs = (failed e form', fs')) ∨
   (∃ fs', convert' form' fs = (succeeded form', fs'))).
Proof.
  intros Hin Hout form'.
  assert (form' = set_output chosen_output (set_input chosen_input form))
    as ->.
  { unfold form', browse_input, browse_output.
    rewrite !(decide_True (P := (""%string = ""%string))) by done.
    by rewrite !decide_False. }
  split; [done|]. split; [done|].
  destruct (convert_ends (set_output chosen_output
                            (set_input chosen_input form)) fs Hin Hout)
    as [(e & fs' & Hrun & _)|Hrun]; [left; by exists e, fs'|by right].
Qed.

End form_properties.

(** X23.  When the input loads, the target is [.xlsx] and the spreadsheet
    package is absent, the box shows the writer's message followed by
    the hint that CSV can still be used; the progress bar is back at 0
    and no file is written. *)
Theorem convert_missing_dependency_hint
    (csv_reader : list Byte.byte → option string → result (list csv_row))
    (write_fault : files → list string → list Byte.byte
                   → option (exception * option (list Byte.byte)))
    (to_csv : DataFrame string → list Byte.byte)
    (to_path : string → list string) (no_such_file : list string → string)
    (form : Form) (fs : files) (raw : list Byte.byte)
    (df : DataFrame string) :
  input_var form ≠ ""%string → output_var form ≠ ""%string →
  fs !! to_path (input_var form) = Some raw →
  load_data_file csv_reader raw = Ok df →
  lower (suffix (to_path (output_var form))) = ".xlsx"%string →
  convert csv_reader write_fault to_csv None to_path no_such_file form fs =
  ({| input_var := input_var form;
      output_var := output_var form;
      progress_value := 0;
      progress_green := progress_green form;
      dialogs :=
        dialogs form ++
        [showerror "Conversion Failed"
           (openpyxl_message +:+ NL +:+ NL
              +:+ "You can still save as CSV format.")] |}, fs).
Proof.
  intros Hin Hout Hraw Hload Hext.
  rewrite (convert_cases _ _ _ _ _ _ form fs Hin Hout).
  unfold load_data_file_at. rewrite Hraw, Hload.
  unfold save_output. rewrite Hext. by rewrite decide_True.
Qed.

(** ** Further scenarios *)

Lemma top_gap_table_rectangular : rectangular top_gap_table.
Proof. split; [done|]. by repeat constructor. Qed.

(** The third column of [top_gap_table] stays empty from the top. *)
Lemma clean_df_no_gap_below_value_witness :
  rectangular top_gap_table ∧ wine_row_gap !! 2 = Some None.
Proof.
  split; [apply top_gap_table_rectangular|].
  apply (clean_df_no_gap_below_value top_gap_table 1 2 0
           wine_row_gap_2 wine_row_gap top_gap_table_rectangular).
  - lia.
  - vm_compute. reflexivity.
  - reflexivity.
  - vm_compute. reflexivity.
Defined.

(** Two distinct complete records are returned as they are. *)
Lemma clean_df_unchanged_witness :
  values (clean_df two_row_table) = [wine_row; wine_row_2].
Proof.
  apply (clean_df_unchanged two_row_table).
  - apply NoDup_cons. split; [|apply NoDup_singleton].
    intros Hin. apply list_elem_of_singleton in Hin. discriminate Hin.
  - repeat constructor; by eexists.
Defined.

(** The table loaded from [gap_file] and its cleaned form. *)
Lemma load_data_file_table_invariant_witness :
  load_data_file plain_reader gap_file = Ok gap_table ∧
  Forall (λ r, length r = 14) (values (clean_df gap_table)).
Proof.
  assert (load_data_file plain_reader gap_file = Ok gap_table) as Hload.
  { vm_compute. reflexivity. }
  split; [exact Hload|].
  apply (load_data_file_table_invariant plain_reader gap_file gap_table Hload).
Defined.

(** The second byte of [short_row_file] is a comma. *)
Lemma comma_byte_in_first_bytes_witness :
  delimiter short_row_file = Some ","%string.
Proof.
  apply (comma_byte_in_first_bytes short_row_file 1); [lia|reflexivity].
Defined.

Lemma save_output_writes_csv_witness :
  ∃ fs', save_output no_fault plain_to_csv None gap_table
           ["out"; "wine.CSV"]%string wine_files = (Ok (), fs') ∧
         fs' !! ["out"; "wine.CSV"]%string = Some (plain_to_csv gap_table) ∧
         ∀ other, other ≠ ["out"; "wine.CSV"]%string →
                  fs' !! other = wine_files !! other.
Proof.
  apply save_output_writes_csv; [vm_compute; reflexivity|reflexivity].
Defined.

Lemma save_output_writes_xlsx_witness :
  ∃ fs', save_output no_fault plain_to_csv (Some sample_workbook) gap_table
           ["out"; "wine.xlsx"]%string wine_files = (Ok (), fs') ∧
         fs' !! ["out"; "wine.xlsx"]%string
           = Some (sample_workbook gap_table) ∧
         ∀ other, other ≠ ["out"; "wine.xlsx"]%string →
                  fs' !! other = wine_files !! other.
Proof.
  apply save_output_writes_xlsx; [vm_compute; reflexivity|reflexivity].
Defined.

Lemma save_output_csv_any_case_witness :
  save_output no_fault plain_to_csv None gap_table
    (["out"]%string ++ ["wine" +:+ String "."%char "Csv"]) wine_files
  = (Ok (), <[["out"]%string ++ ["wine" +:+ String "."%char "Csv"]
               := plain_to_csv gap_table]> wine_files).
Proof.
  apply save_output_csv_any_case;
    [done|reflexivity|vm_compute; reflexivity|reflexivity].
Defined.

(** A target named [.csv] has no suffix. *)
Lemma save_output_no_suffix_witness :
  save_output no_fault plain_to_csv None gap_table
    ["out"; ".csv"]%string wine_files
  = (Raise (ValueError unsupported_message), wine_files).
Proof.
  apply save_output_no_suffix. right. left. vm_compute. reflexivity.
Defined.

Lemma convert_requires_paths_witness :
  ∃ message,
    convert plain_reader no_fault plain_to_csv None posix_path
            posix_no_such_file empty_form wine_files
    = (show (showerror "Error" message) empty_form, wine_files) ∧
    (input_var empty_form = ""%string →
       message = "Select an input .data file."%string) ∧
    (input_var empty_form ≠ ""%string →
       message = "Choose an output file path."%string).
Proof.
  apply convert_requires_paths. by left.
Defined.

Lemma wine_files_input :
  wine_files !! posix_path (input_var ready_form) = Some gap_file.
Proof.
  change (posix_path (input_var ready_form)) with ["in"; "wine.data"]%string.
  apply lookup_singleton_eq.
Qed.

Lemma load_gap_file : load_data_file plain_reader gap_file = Ok gap_table.
Proof. vm_compute. reflexivity. Qed.


(** No file at the input path. *)
Lemma convert_load_failure_witness :
  convert plain_reader no_fault plain_to_csv None posix_path
          posix_no_such_file ready_form ∅
  = (failed (OtherError "FileNotFoundError"
               "[Errno 2] No such file or directory: 'in/wine.data'")
            ready_form, ∅).
Proof.
  apply convert_load_failure; [done|done|].
  unfold load_data_file_at. rewrite lookup_empty. vm_compute. reflexivity.
Defined.

Lemma convert_outcome_witness :
  (∃ e fs', convert plain_reader no_fault plain_to_csv None posix_path
                    posix_no_such_file ready_form wine_files
            = (failed e ready_form, fs') ∧
     (fs' = wine_files ∨
      ∃ e' content partial,
        no_fault wine_files (posix_path (output_var ready_form)) content
        = Some (e', Some partial) ∧
        fs' = <[posix_path (output_var ready_form) := partial]>
                wine_files)) ∨
  (∃ fs', convert plain_reader no_fault plain_to_csv None posix_path
                  posix_no_such_file ready_form wine_files
          = (succeeded ready_form, fs')).
Proof. apply convert_outcome; done. Defined.

(** The input file is still there after the run. *)
Lemma convert_only_touches_output_witness :
  (convert plain_reader no_fault plain_to_csv None posix_path
           posix_no_such_file ready_form wine_files).2
    !! ["in"; "wine.data"]%string
  = Some gap_file.
Proof.
  rewrite convert_only_touches_output.
  - apply lookup_singleton_eq.
  - vm_compute. discriminate.
Defined.

Lemma convert_missing_dependency_hint_witness :
  convert plain_reader no_fault plain_to_csv None posix_path
          posix_no_such_file ready_form_xlsx wine_files
  = ({| input_var := "in/wine.data";
        output_var := "out/wine.xlsx";
        progress_value := 0;
        progress_green := false;
        dialogs :=
          [showerror "Conversion Failed"
             (openpyxl_message +:+ NL +:+ NL
                +:+ "You can still save as CSV format.")] |}, wine_files).
Proof.
  apply (convert_missing_dependency_hint plain_reader no_fault plain_to_csv
           posix_path posix_no_such_file ready_form_xlsx wine_files gap_file
           gap_table).
  - done.
  - done.
  - apply wine_files_input.
  - apply load_gap_file.
  - vm_compute. reflexivity.
Defined.

Lemma browse_then_convert_witness :
  let form' :=
    browse_output "" (browse_input ""
      (browse_output "out/wine.csv" (browse_input "in/wine.data"
                                                  empty_form))) in
  input_var form' = "in/wine.data"%string ∧
  output_var form' = "out/wine.csv"%string ∧
  ((∃ e fs', convert plain_reader no_fault plain_to_csv None posix_path
                     posix_no_such_file form' wine_files
             = (failed e form', fs')) ∨
   (∃ fs', convert plain_reader no_fault plain_to_csv None posix_path
                   posix_no_such_file form' wine_files
           = (succeeded form', fs'))).
Proof. apply browse_then_convert; done. Defined.

(** A target in a directory that does not exist. *)
Lemma convert_write_refused_witness :
  convert plain_reader refuse_missing_dir plain_to_csv None posix_path
          posix_no_such_file lost_form wine_files
  = (failed missing_directory lost_form, wine_files).
Proof.
  apply (convert_write_refused plain_reader refuse_missing_dir plain_to_csv
           None posix_path posix_no_such_file lost_form wine_files gap_file
           gap_table).
  - done.
  - done.
  - apply wine_files_input.
  - apply load_gap_file.
  - vm_compute. reflexivity.
  - intros content. reflexivity.
Defined.
